(** * Battery energy storage system and hourly dispatch: model and properties

    Shallow embedding of [src/bess_model.py] (class
    [BatteryEnergyStorageSystem]) and [src/run_simulation.py]
    (function [run_simulation]).

    Numbers.  The general statements are proved over exact rationals [Q],
    up to [Qeq] ([==]); they are written with the code's own expressions,
    and a statement that an expression of the code has a given form holds
    for binary64 operations as it does for rationals.  Statements that
    compare the results of different expressions depend on rounding; where
    a claim is decided by rounding, the battery is evaluated in module
    [Binary64], the same two methods over IEEE binary64 floats.  Division
    follows Python numbers: dividing by zero raises [ZeroDivisionError]
    (numpy scalars give inf or nan instead).

    Series.  The three input series are sequences of finite numbers over
    one common index; a NaN entry, integer series that wrap around, and
    series with different index labels are outside the model.

    Effects.  A method call mutates the battery object and may raise.  Both
    are explicit: a computation maps the state before the call to the state
    after it together with either the raised exception or the returned
    value.  A raise keeps the mutations made before it, as in Python. *)

From Stdlib Require Import QArith Qround Lqa ZArith Lia List String Bool.
From Stdlib Require PrimFloat.
Import ListNotations.

Local Open Scope Q_scope.

(** ** Python comparisons on numbers *)

Definition Qltb (x y : Q) : bool := negb (Qle_bool y x).

Infix "<?" := Qltb (at level 70, no associativity) : Q_scope.
Infix "=?" := Qeq_bool (at level 70, no associativity) : Q_scope.

(** [min(a, b)] of Python: the first argument unless the second is smaller. *)
Definition py_min (a b : Q) : Q := if b <? a then b else a.

(** ** Exceptions and the state-and-exception monad *)

Inductive exn : Type :=
| ValueError
| ZeroDivisionError
| TypeError
| AttributeError.

Definition M (S A : Type) : Type := S -> S * (exn + A).

Definition ret {S A} (a : A) : M S A := fun s => (s, inr a).

Definition raise {S A} (e : exn) : M S A := fun s => (s, inl e).

Definition bind {S A B} (m : M S A) (k : A -> M S B) : M S B :=
  fun s =>
    match m s with
    | (s', inl e) => (s', inl e)
    | (s', inr a) => k a s'
    end.

Declare Scope monad_scope.
Delimit Scope monad_scope with monad.
Notation "x <- m ;; k" := (bind m (fun x => k))
  (at level 61, m at next level, right associativity) : monad_scope.

(** ** The battery ([bess_model.py]) *)

Record BatteryEnergyStorageSystem : Type := mkBattery {
  battery_capacity : Q;
  battery_power : Q;
  charging_efficiency : Q;
  discharging_efficiency : Q;
  min_soc : Q;
  max_soc : Q;
  existing_energy : Q;
  soc : Q;
  total_charged : Q;
  total_discharged : Q;
  total_losses : Q
}.

(** Attribute assignments [self.x = v]. *)

Definition set_existing_energy (v : Q) (self : BatteryEnergyStorageSystem) :=
  mkBattery (battery_capacity self) (battery_power self)
    (charging_efficiency self) (discharging_efficiency self)
    (min_soc self) (max_soc self)
    v (soc self) (total_charged self) (total_discharged self)
    (total_losses self).

Definition set_soc (v : Q) (self : BatteryEnergyStorageSystem) :=
  mkBattery (battery_capacity self) (battery_power self)
    (charging_efficiency self) (discharging_efficiency self)
    (min_soc self) (max_soc self)
    (existing_energy self) v (total_charged self) (total_discharged self)
    (total_losses self).

Definition set_total_charged (v : Q) (self : BatteryEnergyStorageSystem) :=
  mkBattery (battery_capacity self) (battery_power self)
    (charging_efficiency self) (discharging_efficiency self)
    (min_soc self) (max_soc self)
    (existing_energy self) (soc self) v (total_discharged self)
    (total_losses self).

Definition set_total_discharged (v : Q) (self : BatteryEnergyStorageSystem) :=
  mkBattery (battery_capacity self) (battery_power self)
    (charging_efficiency self) (discharging_efficiency self)
    (min_soc self) (max_soc self)
    (existing_energy self) (soc self) (total_charged self) v
    (total_losses self).

Definition set_total_losses (v : Q) (self : BatteryEnergyStorageSystem) :=
  mkBattery (battery_capacity self) (battery_power self)
    (charging_efficiency self) (discharging_efficiency self)
    (min_soc self) (max_soc self)
    (existing_energy self) (soc self) (total_charged self)
    (total_discharged self) v.

(** [__init__]: stores its arguments, derives the stored energy from the
    initial state of charge and zeroes the counters.  It has no [raise]. *)
Definition init (battery_capacity battery_power initial_soc
                 charging_efficiency discharging_efficiency
                 min_soc max_soc : Q)
  : exn + BatteryEnergyStorageSystem :=
  inr (mkBattery battery_capacity battery_power
         charging_efficiency discharging_efficiency min_soc max_soc
         (initial_soc * battery_capacity) initial_soc 0 0 0).

(** The defaults of [__init__]. *)
Definition default_battery : BatteryEnergyStorageSystem :=
  mkBattery 4000 2000 (95 # 100) (95 # 100) (1 # 10) 1
    ((1 # 2) * 4000) (1 # 2) 0 0 0.

(** Locals of [charge], named as in the source. *)

Definition charging_availability (self : BatteryEnergyStorageSystem) : Q :=
  max_soc self * battery_capacity self - existing_energy self.

(** [actual_charged_energy] after the efficiency is applied and before the
    capacity test. *)
Definition charged_after_efficiency
    (self : BatteryEnergyStorageSystem) (charging_power charging_time : Q) : Q :=
  charging_efficiency self
  * (py_min charging_power (battery_power self) * charging_time).

(** The test [actual_charged_energy > charging_availability]. *)
Definition charge_clipped
    (self : BatteryEnergyStorageSystem) (charging_power charging_time : Q)
  : bool :=
  charging_availability self
  <? charged_after_efficiency self charging_power charging_time.

Definition charge (charging_power charging_time : Q)
  : M BatteryEnergyStorageSystem (Q * Q * Q * Q) :=
  fun self =>
    if charging_power <? 0 then (self, inl ValueError) else
    let actual_charging_power := py_min charging_power (battery_power self) in
    let charged_energy := actual_charging_power * charging_time in
    let actual_charged_energy :=
      if charge_clipped self charging_power charging_time
      then charging_availability self
      else charged_after_efficiency self charging_power charging_time in
    let self :=
      set_existing_energy (existing_energy self + actual_charged_energy) self in
    if battery_capacity self =? 0 then (self, inl ZeroDivisionError) else
    let self := set_soc (existing_energy self / battery_capacity self) self in
    let self :=
      set_total_charged (total_charged self + actual_charged_energy) self in
    let self :=
      set_total_losses
        (total_losses self + charged_energy - actual_charged_energy) self in
    (self,
     inr (actual_charging_power, actual_charged_energy,
          existing_energy self, soc self)).

(** Locals of [discharge]. *)

Definition discharging_availability (self : BatteryEnergyStorageSystem) : Q :=
  existing_energy self - min_soc self * battery_capacity self.

Definition discharged_after_efficiency
    (self : BatteryEnergyStorageSystem)
    (discharging_power discharging_time : Q) : Q :=
  py_min discharging_power (battery_power self) * discharging_time
  * discharging_efficiency self.

Definition discharge_clipped
    (self : BatteryEnergyStorageSystem)
    (discharging_power discharging_time : Q) : bool :=
  discharging_availability self
  <? discharged_after_efficiency self discharging_power discharging_time.

Definition discharge (discharging_power discharging_time : Q)
  : M BatteryEnergyStorageSystem (Q * Q * Q * Q) :=
  fun self =>
    if discharging_power <? 0 then (self, inl ValueError) else
    let actual_discharging_power :=
      py_min discharging_power (battery_power self) in
    let actual_discharged_energy :=
      if discharge_clipped self discharging_power discharging_time
      then discharging_availability self
      else discharged_after_efficiency self discharging_power discharging_time
    in
    let self :=
      set_existing_energy (existing_energy self - actual_discharged_energy) self
    in
    if battery_capacity self =? 0 then (self, inl ZeroDivisionError) else
    let self := set_soc (existing_energy self / battery_capacity self) self in
    let self :=
      set_total_discharged (total_discharged self + actual_discharged_energy)
        self in
    let self :=
      set_total_losses
        (total_losses self
         + actual_discharging_power * discharging_time
           * (1 - discharging_efficiency self)) self in
    (self,
     inr (actual_discharging_power, actual_discharged_energy,
          existing_energy self, soc self)).

(** [get_battery_state]: the five reported entries, in the order of the
    dictionary; the object is not changed. *)
Record battery_state : Type := mkState {
  state_soc : Q;
  state_existing_energy : Q;
  state_total_charged : Q;
  state_total_discharged : Q;
  state_total_losses : Q
}.

Definition get_battery_state (self : BatteryEnergyStorageSystem)
  : battery_state :=
  mkState (soc self) (existing_energy self) (total_charged self)
    (total_discharged self) (total_losses self).

(** ** The battery over binary64 floats

    The same [__init__], [charge] and [discharge], statement by statement,
    with every number a binary64 float and every operation the IEEE
    operation Python performs. *)

Module Binary64.

Import PrimFloat.
#[local] Set Warnings "-inexact-float".
Local Open Scope float_scope.

Record BatteryEnergyStorageSystem : Type := mkBattery {
  battery_capacity : float;
  battery_power : float;
  charging_efficiency : float;
  discharging_efficiency : float;
  min_soc : float;
  max_soc : float;
  existing_energy : float;
  soc : float;
  total_charged : float;
  total_discharged : float;
  total_losses : float
}.

Definition py_min (a b : float) : float := if b <? a then b else a.

Definition init (battery_capacity battery_power initial_soc
                 charging_efficiency discharging_efficiency
                 min_soc max_soc : float)
  : BatteryEnergyStorageSystem :=
  mkBattery battery_capacity battery_power
    charging_efficiency discharging_efficiency min_soc max_soc
    (initial_soc * battery_capacity) initial_soc 0 0 0.

Definition charge (charging_power charging_time : float)
  : M BatteryEnergyStorageSystem (float * float * float * float) :=
  fun self =>
    if charging_power <? 0 then (self, inl ValueError) else
    let actual_charging_power := py_min charging_power (battery_power self) in
    let charged_energy := actual_charging_power * charging_time in
    let actual_charged_energy := charging_efficiency self * charged_energy in
    let charging_availability :=
      max_soc self * battery_capacity self - existing_energy self in
    let actual_charged_energy :=
      if charging_availability <? actual_charged_energy
      then charging_availability else actual_charged_energy in
    let existing_energy' := existing_energy self + actual_charged_energy in
    if battery_capacity self =? 0
    then (mkBattery (battery_capacity self) (battery_power self)
            (charging_efficiency self) (discharging_efficiency self)
            (min_soc self) (max_soc self)
            existing_energy' (soc self) (total_charged self)
            (total_discharged self) (total_losses self),
          inl ZeroDivisionError)
    else
    let soc' := existing_energy' / battery_capacity self in
    (mkBattery (battery_capacity self) (battery_power self)
       (charging_efficiency self) (discharging_efficiency self)
       (min_soc self) (max_soc self)
       existing_energy' soc'
       (total_charged self + actual_charged_energy)
       (total_discharged self)
       (total_losses self + charged_energy - actual_charged_energy),
     inr (actual_charging_power, actual_charged_energy,
          existing_energy', soc')).

Definition discharge (discharging_power discharging_time : float)
  : M BatteryEnergyStorageSystem (float * float * float * float) :=
  fun self =>
    if discharging_power <? 0 then (self, inl ValueError) else
    let actual_discharging_power :=
      py_min discharging_power (battery_power self) in
    let actual_discharged_energy :=
      actual_discharging_power * discharging_time
      * discharging_efficiency self in
    let discharging_availability :=
      existing_energy self - min_soc self * battery_capacity self in
    let actual_discharged_energy :=
      if discharging_availability <? actual_discharged_energy
      then discharging_availability else actual_discharged_energy in
    let existing_energy' := existing_energy self - actual_discharged_energy in
    if battery_capacity self =? 0
    then (mkBattery (battery_capacity self) (battery_power self)
            (charging_efficiency self) (discharging_efficiency self)
            (min_soc self) (max_soc self)
            existing_energy' (soc self) (total_charged self)
            (total_discharged self) (total_losses self),
          inl ZeroDivisionError)
    else
    let soc' := existing_energy' / battery_capacity self in
    (mkBattery (battery_capacity self) (battery_power self)
       (charging_efficiency self) (discharging_efficiency self)
       (min_soc self) (max_soc self)
       existing_energy' soc'
       (total_charged self)
       (total_discharged self + actual_discharged_energy)
       (total_losses self
        + actual_discharging_power * discharging_time
          * (1 - discharging_efficiency self)),
     inr (actual_discharging_power, actual_discharged_energy,
          existing_energy', soc')).

(** The usable band, as a test on floats. *)
Definition in_band (self : BatteryEnergyStorageSystem) : bool :=
  (min_soc self * battery_capacity self <=? existing_energy self)
  && (existing_energy self <=? max_soc self * battery_capacity self).

Definition below_band (self : BatteryEnergyStorageSystem) : bool :=
  existing_energy self <? min_soc self * battery_capacity self.

Definition above_band (self : BatteryEnergyStorageSystem) : bool :=
  max_soc self * battery_capacity self <? existing_energy self.

(** A home battery of 13.5 kWh at half charge,
    [BatteryEnergyStorageSystem(13.5, 2000, 0.5, 0.95, 0.95, 0.1, 1)], and
    the same battery at 30 percent with [max_soc = 0.9]. *)
Definition home_battery : BatteryEnergyStorageSystem :=
  init 13.5 2000 0.5 0.95 0.95 0.1 1.

Definition home_battery_90 : BatteryEnergyStorageSystem :=
  init 13.5 2000 0.3 0.95 0.95 0.1 0.9.

(** The arguments [(2000, 1)] of the call examined below. *)
Definition full_power : float := 2000.
Definition one_hour : float := 1.

End Binary64.

(** A call of one of the two operations, and a client that issues a
    sequence of calls on one battery object, going on to the next call
    whatever the outcome of the previous one. *)
Inductive call : Type :=
| Charge (power time : Q)
| Discharge (power time : Q).

Definition perform (c : call) : M BatteryEnergyStorageSystem (Q * Q * Q * Q) :=
  match c with
  | Charge p t => charge p t
  | Discharge p t => discharge p t
  end.

(** The battery after each call of the sequence, in order. *)
Fixpoint states_after (cs : list call) (self : BatteryEnergyStorageSystem)
  : list BatteryEnergyStorageSystem :=
  match cs with
  | [] => []
  | c :: cs' =>
      let self' := fst (perform c self) in
      self' :: states_after cs' self'
  end.

(** The usable band of the stored energy. *)
Definition in_band (self : BatteryEnergyStorageSystem) : Prop :=
  min_soc self * battery_capacity self <= existing_energy self
  /\ existing_energy self <= max_soc self * battery_capacity self.

(** ** The dispatch simulator ([run_simulation.py]) *)

(** Values held by the variables that receive the result of a battery
    call: a number (the source indexes the result with [[1]]) or the whole
    4-tuple (the source does not index it). *)
Inductive value : Type :=
| Num (q : Q)
| Tuple (t : Q * Q * Q * Q).

(** [arr[hour] = v] on a float array: a 4-tuple is refused by numpy with
    ValueError (setting an array element with a sequence). *)
Definition setitem {S} (v : value) : M S Q :=
  match v with
  | Num q => ret q
  | Tuple _ => raise ValueError
  end.

(** Unary minus: undefined on tuples (TypeError). *)
Definition py_neg {S} (v : value) : M S value :=
  match v with
  | Num q => ret (Num (- q))
  | Tuple _ => raise TypeError
  end.

(** [x - v] and [x + v] for a number [x]; these are evaluated only after
    [v] has been stored in a float array, hence on numbers. *)
Definition py_sub {S} (x : Q) (v : value) : M S Q :=
  match v with
  | Num q => ret (x - q)
  | Tuple _ => raise TypeError
  end.

Definition py_add {S} (x : Q) (v : value) : M S Q :=
  match v with
  | Num q => ret (x + q)
  | Tuple _ => raise TypeError
  end.

(** The state of a run: the battery object, and the list of battery
    operations invoked so far (a ghost log, used to count invocations). *)
Record sim_state : Type := mkSim {
  battery : BatteryEnergyStorageSystem;
  invoked : list call
}.

Definition Sim (A : Type) : Type := M sim_state A.

(** [battery.charge(p)] and [battery.discharge(p)], with the default
    duration of one hour. *)
Definition battery_charge (p : Q) : Sim (Q * Q * Q * Q) :=
  fun s =>
    let (b, r) := charge p 1 (battery s) in
    (mkSim b (invoked s ++ [Charge p 1]), r).

Definition battery_discharge (p : Q) : Sim (Q * Q * Q * Q) :=
  fun s =>
    let (b, r) := discharge p 1 (battery s) in
    (mkSim b (invoked s ++ [Discharge p 1]), r).

Definition the_battery : Sim BatteryEnergyStorageSystem :=
  fun s => (s, inr (battery s)).

(** Second component of the returned tuple, [...[1]]. *)
Definition item1 (r : Q * Q * Q * Q) : Q :=
  match r with (_, e, _, _) => e end.

(** The entries of the five result arrays at the current hour. *)
Record slots : Type := mkSlots {
  energy_movement : Q;
  battery_soc : Q;
  battery_energy : Q;
  grid_power : Q;
  electricity_cost : Q
}.

(** [np.zeros]. *)
Definition zero_slots : slots := mkSlots 0 0 0 0 0.

Definition store_movement (v : Q) (sl : slots) : slots :=
  mkSlots v (battery_soc sl) (battery_energy sl) (grid_power sl)
    (electricity_cost sl).

Definition store_battery (b : BatteryEnergyStorageSystem) (sl : slots) : slots :=
  mkSlots (energy_movement sl)
    (state_soc (get_battery_state b))
    (state_existing_energy (get_battery_state b))
    (grid_power sl) (electricity_cost sl).

Definition store_grid (v : Q) (sl : slots) : slots :=
  mkSlots (energy_movement sl) (battery_soc sl) (battery_energy sl) v
    (electricity_cost sl).

Definition store_cost (v : Q) (sl : slots) : slots :=
  mkSlots (energy_movement sl) (battery_soc sl) (battery_energy sl)
    (grid_power sl) v.

Local Open Scope monad_scope.

(** Lines 55-75: the body of the ['simple'] strategy. *)
Definition simple_hour (current_net_load : Q) (sl : slots) : Sim slots :=
  if 0 <? current_net_load then
    let charging_power := current_net_load in
    r <- battery_charge charging_power ;;
    let actual_charged_energy := item1 r in
    let sl := store_movement actual_charged_energy sl in
    b <- the_battery ;;
    let sl := store_battery b sl in
    let remaining_PV := current_net_load - actual_charged_energy in
    ret (store_grid remaining_PV sl)
  else
    let discharging_power := - current_net_load in
    r <- battery_discharge discharging_power ;;
    let actual_discharged_energy := item1 r in
    let sl := store_movement (- actual_discharged_energy) sl in
    b <- the_battery ;;
    let sl := store_battery b sl in
    let remaining_dificit := current_net_load + actual_discharged_energy in
    ret (store_grid remaining_dificit sl).

(** Lines 83-101: the low-price block.  The result of [charge] is kept
    whole. *)
Definition low_price_hour (current_net_load : Q) (sl : slots) : Sim slots :=
  b <- the_battery ;;
  let charging_power :=
    if 0 <? current_net_load then current_net_load else battery_power b in
  r <- battery_charge charging_power ;;
  let actual_charged_energy := Tuple r in
  m <- setitem actual_charged_energy ;;
  let sl := store_movement m sl in
  b <- the_battery ;;
  let sl := store_battery b sl in
  remaining_PV <- py_sub current_net_load actual_charged_energy ;;
  ret (store_grid remaining_PV sl).

(** Lines 104-124: the high-price block.  [battery.batter_power] is not an
    attribute of the class; the result of [discharge] is kept whole. *)
Definition high_price_hour (current_net_load : Q) (sl : slots) : Sim slots :=
  discharging_power <-
    (if current_net_load <? 0 then ret (- current_net_load)
     else
       b <- the_battery ;;
       if (1 # 10) <? soc b then raise AttributeError else ret 0) ;;
  r <- battery_discharge discharging_power ;;
  let actual_discharged_energy := Tuple r in
  v <- py_neg actual_discharged_energy ;;
  m <- setitem v ;;
  let sl := store_movement m sl in
  b <- the_battery ;;
  let sl := store_battery b sl in
  remaining_dificit <- py_add current_net_load actual_discharged_energy ;;
  ret (store_grid remaining_dificit sl).

(** Lines 127-148: the medium-price block.  The deficit branch passes
    [current_net_load] itself to [discharge]. *)
Definition medium_price_hour (current_net_load : Q) (sl : slots) : Sim slots :=
  if 0 <? current_net_load then
    let charging_power := current_net_load in
    r <- battery_charge charging_power ;;
    let actual_charged_energy := item1 r in
    let sl := store_movement actual_charged_energy sl in
    b <- the_battery ;;
    let sl := store_battery b sl in
    let remaining_PV := current_net_load - actual_charged_energy in
    ret (store_grid remaining_PV sl)
  else
    let discharging_power := current_net_load in
    r <- battery_discharge discharging_power ;;
    let actual_discharged_energy := item1 r in
    let sl := store_movement (- actual_discharged_energy) sl in
    b <- the_battery ;;
    let sl := store_battery b sl in
    let remaining_dificit := current_net_load + actual_discharged_energy in
    ret (store_grid remaining_dificit sl).

(** [np.percentile(a, q)] with numpy's default linear interpolation between
    the two closest ranks of the sorted data. *)
Fixpoint insert_sorted (x : Q) (l : list Q) : list Q :=
  match l with
  | [] => [x]
  | y :: l' => if Qle_bool x y then x :: l else y :: insert_sorted x l'
  end.

Definition sort (l : list Q) : list Q := fold_right insert_sorted [] l.

Definition percentile (a : list Q) (q : Q) : Q :=
  let s := sort a in
  let n := Z.of_nat (List.length s) in
  let virtual_index := (inject_Z n - 1) * q / 100 in
  let lo := Qfloor virtual_index in
  let hi := Z.min (lo + 1) (n - 1) in
  let gamma := virtual_index - inject_Z lo in
  let a_lo := nth (Z.to_nat lo) s 0 in
  let a_hi := nth (Z.to_nat hi) s 0 in
  a_lo + (a_hi - a_lo) * gamma.

Definition price_threshold_low (electricity_prices : list Q) : Q :=
  percentile electricity_prices 25.

Definition price_threshold_high (electricity_prices : list Q) : Q :=
  percentile electricity_prices 75.

(** Lines 76-148: the ['price arbitrage'] strategy: an [if] on the low
    threshold, followed by a separate [if]/[else] on the high threshold. *)
Definition price_arbitrage_hour (electricity_prices : list Q)
    (current_net_load current_price : Q) (sl : slots) : Sim slots :=
  sl <- (if Qle_bool current_price (price_threshold_low electricity_prices)
         then low_price_hour current_net_load sl
         else ret sl) ;;
  if price_threshold_high electricity_prices <? current_price
  then high_price_hour current_net_load sl
  else medium_price_hour current_net_load sl.

(** Lines 53-148: selection of the strategy by name; any other name leaves
    the arrays as they are. *)
Definition dispatch (control_strategy : string) (electricity_prices : list Q)
    (current_net_load current_price : Q) (sl : slots) : Sim slots :=
  if String.eqb control_strategy "simple"
  then simple_hour current_net_load sl
  else if String.eqb control_strategy "price arbitrage"
  then price_arbitrage_hour electricity_prices current_net_load current_price sl
  else ret sl.

(** Lines 50-158: the body of the loop for one hour. *)
Definition hour_body (control_strategy : string) (electricity_prices : list Q)
    (grid_connection_limit : option Q)
    (current_net_load current_price : Q) : Sim slots :=
  sl <- dispatch control_strategy electricity_prices
          current_net_load current_price zero_slots ;;
  let sl := match grid_connection_limit with
            | Some _ => sl
            | None => sl
            end in
  ret (store_cost (grid_power sl * current_price) sl).

(** The loop over the hours, given as pairs (net load, price). *)
Fixpoint run_hours (control_strategy : string) (electricity_prices : list Q)
    (grid_connection_limit : option Q) (hours : list (Q * Q))
  : Sim (list slots) :=
  match hours with
  | [] => ret []
  | (current_net_load, current_price) :: rest =>
      sl <- hour_body control_strategy electricity_prices
              grid_connection_limit current_net_load current_price ;;
      sls <- run_hours control_strategy electricity_prices
               grid_connection_limit rest ;;
      ret (sl :: sls)
  end.

(** Element-wise [pv_generation - building_demand] of two series with the
    same index. *)
Fixpoint series_sub (a b : list Q) : list Q :=
  match a, b with
  | x :: a', y :: b' => (x - y) :: series_sub a' b'
  | _, _ => []
  end.

(** A row of the returned table (the timestamp column is the position). *)
Record result_row : Type := mkRow {
  row_pv_generation : Q;
  row_building_demand : Q;
  row_electricity_prices : Q;
  row_slots : slots
}.

Fixpoint assemble (pv dem prices : list Q) (sls : list slots)
  : list result_row :=
  match pv, dem, prices, sls with
  | p :: pv', d :: dem', c :: prices', sl :: sls' =>
      mkRow p d c sl :: assemble pv' dem' prices' sls'
  | _, _, _, _ => []
  end.

Definition run_simulation (pv_generation building_demand
                           electricity_prices : list Q)
    (control_strategy : string) (grid_connection_limit : option Q)
  : Sim (list result_row) :=
  if negb (Nat.eqb (List.length pv_generation) (List.length building_demand)
           && Nat.eqb (List.length building_demand)
                (List.length electricity_prices))
  then raise ValueError
  else
    let net_load := series_sub pv_generation building_demand in
    sls <- run_hours control_strategy electricity_prices
             grid_connection_limit (combine net_load electricity_prices) ;;
    ret (assemble pv_generation building_demand electricity_prices sls).

Local Close Scope monad_scope.

(** ** Predicates used in the statements *)

(** The energy applied by [charge] and by [discharge]: the value of
    [actual_charged_energy] (of [actual_discharged_energy]) after the
    availability test. *)
Definition applied_charge (self : BatteryEnergyStorageSystem) (p t : Q) : Q :=
  if charge_clipped self p t then charging_availability self
  else charged_after_efficiency self p t.

Definition applied_discharge (self : BatteryEnergyStorageSystem) (p t : Q)
  : Q :=
  if discharge_clipped self p t then discharging_availability self
  else discharged_after_efficiency self p t.

(** A call with non-negative requested power and non-negative duration. *)
Definition nonneg_call (c : call) : Prop :=
  match c with
  | Charge p t => 0 <= p /\ 0 <= t
  | Discharge p t => 0 <= p /\ 0 <= t
  end.

(** The specification's conservation property of one [charge] call, in its
    words: the applied energy is at most requested power times duration
    times efficiency, and equal to it unless the energy was clipped by the
    headroom. *)
Definition charge_conservation_as_specified
    (self : BatteryEnergyStorageSystem) (p t : Q) : Prop :=
  forall self' ap ace e s,
    charge p t self = (self', inr (ap, ace, e, s)) ->
    ace <= p * t * charging_efficiency self
    /\ (charge_clipped self p t = false ->
        ace == p * t * charging_efficiency self).

(** The specification's pre-efficiency equivalent of a recorded energy
    movement: the energy on the bus side of the converter, that is the
    stored energy divided by the charging efficiency, or the delivered
    energy divided by the discharging efficiency. *)
Definition pre_efficiency_equivalent
    (b : BatteryEnergyStorageSystem) (movement : Q) : Q :=
  if 0 <? movement then movement / charging_efficiency b
  else movement / discharging_efficiency b.

(** Net load of a row, and the reconciliation of a row with the recorded
    (post-efficiency) energy movement. *)
Definition row_net_load (r : result_row) : Q :=
  row_pv_generation r - row_building_demand r.

Definition reconciled (r : result_row) : Prop :=
  row_net_load r
  == energy_movement (row_slots r) + grid_power (row_slots r).

(** Energy drawn from the grid in a row, by the balance at the connection
    point: demand plus energy taken up by the battery minus generation
    (negative when energy is fed into the grid). *)
Definition net_import (r : result_row) : Q :=
  row_building_demand r + energy_movement (row_slots r)
  - row_pv_generation r.

Definition known_strategy (control_strategy : string) : Prop :=
  control_strategy = "simple"%string
  \/ control_strategy = "price arbitrage"%string.

(** Operations invoked between two states of a run. *)
Definition invoked_between (s s' : sim_state) (ops : list call) : Prop :=
  invoked s' = invoked s ++ ops.

(** Ascending order: every element is below all later ones. *)
Inductive ascending : list Q -> Prop :=
| ascending_nil : ascending []
| ascending_cons (x : Q) (l : list Q) :
    Forall (Qle x) l -> ascending l -> ascending (x :: l).

(** ** Predicates of the further properties *)

(** A battery whose rating and efficiencies are physically meaningful:
    non-negative rating, efficiencies between 0 and 1. *)
Definition sound_config (b : BatteryEnergyStorageSystem) : Prop :=
  0 <= battery_power b
  /\ 0 <= charging_efficiency b /\ charging_efficiency b <= 1
  /\ 0 <= discharging_efficiency b /\ discharging_efficiency b <= 1.

(** The recorded stored energies form a chain: each one is the previous one
    (the initial stored energy for the first hour) plus the recorded energy
    movement of its hour. *)
Fixpoint chained (e : Q) (sls : list slots) : Prop :=
  match sls with
  | [] => True
  | sl :: rest =>
      battery_energy sl == e + energy_movement sl
      /\ chained (battery_energy sl) rest
  end.

(** The operation the simple strategy requests for a net load. *)
Definition simple_request (current_net_load : Q) : call :=
  if 0 <? current_net_load then Charge current_net_load 1
  else Discharge (- current_net_load) 1.

(** ** Comparisons *)

Lemma Qltb_true (x y : Q) : (x <? y) = true <-> x < y.
Proof.
  unfold Qltb. rewrite negb_true_iff.
  split; intro H.
  - apply Qnot_le_lt. intro Hle. apply Qle_bool_iff in Hle. congruence.
  - destruct (Qle_bool y x) eqn:E; [|reflexivity].
    apply Qle_bool_iff in E. exfalso. apply (Qlt_not_le _ _ H E).
Qed.

Lemma Qltb_false (x y : Q) : (x <? y) = false <-> y <= x.
Proof.
  unfold Qltb. rewrite negb_false_iff. apply Qle_bool_iff.
Qed.

Lemma Qeq_bool_false (x y : Q) : (x =? y) = false <-> ~ x == y.
Proof.
  split; intro H.
  - intro E. apply Qeq_bool_iff in E. congruence.
  - destruct (x =? y) eqn:E; [|reflexivity].
    apply Qeq_bool_iff in E. contradiction.
Qed.

Lemma py_min_le_l (a b : Q) : py_min a b <= a.
Proof.
  unfold py_min. destruct (b <? a) eqn:E.
  - apply Qltb_true in E. lra.
  - lra.
Qed.

Lemma py_min_nonneg (a b : Q) : 0 <= a -> 0 <= b -> 0 <= py_min a b.
Proof.
  intros Ha Hb. unfold py_min. destruct (b <? a); assumption.
Qed.

(** ** The battery *)

Section Battery.

Variable self : BatteryEnergyStorageSystem.

(** A call with negative power raises at once. *)
Lemma charge_negative (p t : Q) :
  p < 0 -> charge p t self = (self, inl ValueError).
Proof.
  intro H. unfold charge. apply Qltb_true in H. rewrite H. reflexivity.
Qed.

Lemma discharge_negative (p t : Q) :
  p < 0 -> discharge p t self = (self, inl ValueError).
Proof.
  intro H. unfold discharge. apply Qltb_true in H. rewrite H. reflexivity.
Qed.

(** The stored energy after a call with non-negative power, whether the
    call returns or raises while recomputing [soc]. *)
Lemma charge_energy (p t : Q) :
  0 <= p ->
  existing_energy (fst (charge p t self))
  = existing_energy self + applied_charge self p t.
Proof.
  intro H. unfold charge. apply Qltb_false in H. rewrite H.
  cbn [set_existing_energy battery_capacity].
  destruct (battery_capacity self =? 0); reflexivity.
Qed.

Lemma discharge_energy (p t : Q) :
  0 <= p ->
  existing_energy (fst (discharge p t self))
  = existing_energy self - applied_discharge self p t.
Proof.
  intro H. unfold discharge. apply Qltb_false in H. rewrite H.
  cbn [set_existing_energy battery_capacity].
  destruct (battery_capacity self =? 0); reflexivity.
Qed.

(** No call changes the configuration. *)
Lemma perform_config (c : call) :
  let self' := fst (perform c self) in
  battery_capacity self' = battery_capacity self
  /\ battery_power self' = battery_power self
  /\ charging_efficiency self' = charging_efficiency self
  /\ discharging_efficiency self' = discharging_efficiency self
  /\ min_soc self' = min_soc self
  /\ max_soc self' = max_soc self.
Proof.
  destruct c as [p t|p t]; cbn [perform]; [unfold charge|unfold discharge];
    destruct (p <? 0); cbn [fst set_existing_energy battery_capacity];
    try (destruct (battery_capacity self =? 0)); cbn; repeat split.
Qed.

(** A call with non-negative power on a battery of non-zero capacity
    returns. *)
Lemma charge_returns (p t : Q) :
  0 <= p -> ~ battery_capacity self == 0 ->
  exists self',
    charge p t self
    = (self', inr (py_min p (battery_power self), applied_charge self p t,
                   existing_energy self', soc self'))
    /\ total_charged self' = total_charged self + applied_charge self p t
    /\ total_losses self'
       = total_losses self + py_min p (battery_power self) * t
         - applied_charge self p t.
Proof.
  intros Hp Hc. unfold charge.
  apply Qltb_false in Hp. rewrite Hp.
  cbn [set_existing_energy battery_capacity].
  apply Qeq_bool_false in Hc. rewrite Hc.
  eexists. split; [reflexivity|]. split; reflexivity.
Qed.

Lemma discharge_returns (p t : Q) :
  0 <= p -> ~ battery_capacity self == 0 ->
  exists self',
    discharge p t self
    = (self', inr (py_min p (battery_power self), applied_discharge self p t,
                   existing_energy self', soc self'))
    /\ total_discharged self' = total_discharged self + applied_discharge self p t
    /\ total_losses self'
       = total_losses self
         + py_min p (battery_power self) * t
           * (1 - discharging_efficiency self).
Proof.
  intros Hp Hc. unfold discharge.
  apply Qltb_false in Hp. rewrite Hp.
  cbn [set_existing_energy battery_capacity].
  apply Qeq_bool_false in Hc. rewrite Hc.
  eexists. split; [reflexivity|]. split; reflexivity.
Qed.

End Battery.

(** *** The usable band *)

Lemma applied_charge_bounds (self : BatteryEnergyStorageSystem) (p t : Q) :
  0 <= p -> 0 <= t ->
  0 <= battery_power self -> 0 <= charging_efficiency self ->
  existing_energy self <= max_soc self * battery_capacity self ->
  0 <= applied_charge self p t
  /\ applied_charge self p t <= charging_availability self.
Proof.
  intros Hp Ht HP He Hmax.
  assert (H0 : 0 <= charged_after_efficiency self p t).
  { unfold charged_after_efficiency.
    apply Qmult_le_0_compat; [assumption|].
    apply Qmult_le_0_compat; [|assumption].
    apply py_min_nonneg; assumption. }
  unfold applied_charge, charge_clipped.
  destruct (charging_availability self <? charged_after_efficiency self p t)
    eqn:E.
  - unfold charging_availability. split; lra.
  - apply Qltb_false in E. split; assumption.
Qed.

Lemma applied_discharge_bounds (self : BatteryEnergyStorageSystem) (p t : Q) :
  0 <= p -> 0 <= t ->
  0 <= battery_power self -> 0 <= discharging_efficiency self ->
  min_soc self * battery_capacity self <= existing_energy self ->
  0 <= applied_discharge self p t
  /\ applied_discharge self p t <= discharging_availability self.
Proof.
  intros Hp Ht HP He Hmin.
  assert (H0 : 0 <= discharged_after_efficiency self p t).
  { unfold discharged_after_efficiency.
    apply Qmult_le_0_compat; [|assumption].
    apply Qmult_le_0_compat; [|assumption].
    apply py_min_nonneg; assumption. }
  unfold applied_discharge, discharge_clipped.
  destruct (discharging_availability self
            <? discharged_after_efficiency self p t) eqn:E.
  - unfold discharging_availability. split; lra.
  - apply Qltb_false in E. split; assumption.
Qed.

Lemma perform_in_band (self : BatteryEnergyStorageSystem) (c : call) :
  0 <= battery_power self ->
  0 <= charging_efficiency self ->
  0 <= discharging_efficiency self ->
  nonneg_call c ->
  in_band self ->
  in_band (fst (perform c self)).
Proof.
  intros HP Hc Hd Hnn [Hlo Hhi].
  destruct (perform_config self c) as (Ecap & _ & _ & _ & Emin & Emax).
  unfold in_band. rewrite Ecap, Emin, Emax.
  destruct c as [p t|p t]; destruct Hnn as [Hp Ht]; cbn [perform].
  - rewrite charge_energy by assumption.
    destruct (applied_charge_bounds self p t Hp Ht HP Hc Hhi) as [H0 H1].
    unfold charging_availability in H1. split; lra.
  - rewrite discharge_energy by assumption.
    destruct (applied_discharge_bounds self p t Hp Ht HP Hd Hlo) as [H0 H1].
    unfold discharging_availability in H1. split; lra.
Qed.

(** In exact arithmetic the two methods keep the band: a battery with
    non-negative power rating and non-negative efficiencies whose stored
    energy starts within [min_soc * capacity <= stored <= max_soc * capacity]
    stays within it after every call of every sequence of [charge] and
    [discharge] calls with non-negative requested power and duration.  The
    clip is therefore right as a formula; what follows shows what rounding
    makes of it. *)
Lemma band_invariant (cs : list call) (self : BatteryEnergyStorageSystem) :
  0 <= battery_power self ->
  0 <= charging_efficiency self ->
  0 <= discharging_efficiency self ->
  in_band self ->
  Forall nonneg_call cs ->
  Forall in_band (states_after cs self).
Proof.
  intros HP Hc Hd Hin Hcs. revert self HP Hc Hd Hin.
  induction Hcs as [|c cs Hnn _ IH]; intros self HP Hc Hd Hin.
  - constructor.
  - cbn [states_after].
    destruct (perform_config self c) as (_ & EP & Ec & Ed & _ & _).
    constructor.
    + apply perform_in_band; assumption.
    + apply IH.
      * rewrite EP. assumption.
      * rewrite Ec. assumption.
      * rewrite Ed. assumption.
      * apply perform_in_band; assumption.
Qed.

Lemma band_invariant_witness :
  Forall in_band
    (states_after [Charge 3000 1; Discharge 2000 3; Charge 10 (1 # 2)]
       default_battery).
Proof.
  apply band_invariant.
  - vm_compute. discriminate.
  - vm_compute. discriminate.
  - vm_compute. discriminate.
  - split; vm_compute; discriminate.
  - repeat constructor; vm_compute; discriminate.
Defined.

(** C1.  The code at a valid battery and a valid call, in binary64.
    [BatteryEnergyStorageSystem(13.5, 2000, 0.5, 0.95, 0.95, 0.1, 1)] is
    within its band; [discharge(2000, 1)] is clipped to the availability
    [6.75 - 0.1 * 13.5] and leaves [6.75 - (6.75 - 0.1 * 13.5)], which is
    1.3499999999999996, below [min_soc * capacity] = 1.3500000000000001,
    with a state of charge of 0.09999999999999998 below [min_soc].  The
    same battery at 30 percent with [max_soc = 0.9] is within its band, and
    [charge(2000, 1)] leaves 12.150000000000002, above
    [max_soc * capacity] = 12.15. *)
Theorem clipped_call_leaves_band_in_binary64 :
  Binary64.in_band Binary64.home_battery = true
  /\ (exists b r,
        Binary64.discharge Binary64.full_power Binary64.one_hour
          Binary64.home_battery = (b, inr r)
        /\ Binary64.below_band b = true
        /\ PrimFloat.ltb (Binary64.soc b) (Binary64.min_soc b) = true)
  /\ Binary64.in_band Binary64.home_battery_90 = true
  /\ (exists b r,
        Binary64.charge Binary64.full_power Binary64.one_hour
          Binary64.home_battery_90 = (b, inr r)
        /\ Binary64.above_band b = true).
Proof.
  split; [vm_compute; reflexivity|]. split.
  - do 2 eexists. split; [vm_compute; reflexivity|].
    split; vm_compute; reflexivity.
  - split; [vm_compute; reflexivity|].
    do 2 eexists. split; [vm_compute; reflexivity|].
    vm_compute. reflexivity.
Qed.

(** *** Construction *)

(** C4, as stated, fails: construction succeeds on parameters with
    [min_soc >= max_soc], efficiencies outside (0,1] and non-positive
    capacity and power. *)
Lemma init_accepts_invalid_config :
  1 >= (1 # 10) /\ ~ 2 <= 1 /\ ~ 0 < 0 /\ -1 <= 0
  /\ exists b, init (-1) (-1) (1 # 2) 2 0 1 (1 # 10) = inr b.
Proof.
  repeat split; try (vm_compute; congruence).
  eexists. reflexivity.
Qed.

(** C4, amended.  Construction validates nothing: for all parameters it
    produces a battery holding the parameters as given, with stored energy
    [initial_soc * battery_capacity], state of charge [initial_soc] and
    the three counters at zero. *)
Theorem init_always_constructs
    (capacity power initial_soc ceff deff lo hi : Q) :
  exists b,
    init capacity power initial_soc ceff deff lo hi = inr b
    /\ battery_capacity b = capacity /\ battery_power b = power
    /\ charging_efficiency b = ceff /\ discharging_efficiency b = deff
    /\ min_soc b = lo /\ max_soc b = hi
    /\ existing_energy b = initial_soc * capacity /\ soc b = initial_soc
    /\ total_charged b = 0 /\ total_discharged b = 0 /\ total_losses b = 0.
Proof.
  eexists. split; [reflexivity|]. cbn. repeat split.
Qed.

(** *** Rejected requests *)

(** C5, as stated, fails: a negative duration is accepted by both
    operations. *)
Lemma negative_duration_is_accepted :
  -1 < 0
  /\ (exists b r, charge 5 (-1) default_battery = (b, inr r))
  /\ (exists b r, discharge 5 (-1) default_battery = (b, inr r)).
Proof.
  split; [reflexivity|].
  split; eexists; eexists; vm_compute; reflexivity.
Qed.

(** C5, amended.  A call of [charge] or [discharge] raises ValueError
    exactly when the requested power is negative; the duration is not
    examined, so no value of it, negative or not, triggers the error. *)
Theorem value_error_iff_negative_power
    (self : BatteryEnergyStorageSystem) (p t : Q) :
  (snd (charge p t self) = inl ValueError <-> p < 0)
  /\ (snd (discharge p t self) = inl ValueError <-> p < 0).
Proof.
  split; split; intro H.
  - unfold charge in H. destruct (p <? 0) eqn:E.
    + apply Qltb_true in E. assumption.
    + cbn [set_existing_energy battery_capacity] in H.
      destruct (battery_capacity self =? 0); cbn in H; discriminate.
  - rewrite charge_negative by assumption. reflexivity.
  - unfold discharge in H. destruct (p <? 0) eqn:E.
    + apply Qltb_true in E. assumption.
    + cbn [set_existing_energy battery_capacity] in H.
      destruct (battery_capacity self =? 0); cbn in H; discriminate.
  - rewrite discharge_negative by assumption. reflexivity.
Qed.

(** C10.  A [charge] or [discharge] call with negative requested power
    raises ValueError and leaves the battery exactly as it was: stored
    energy, state of charge and the three counters are unchanged. *)
Theorem negative_power_is_atomic
    (self : BatteryEnergyStorageSystem) (p t : Q) :
  p < 0 ->
  charge p t self = (self, inl ValueError)
  /\ discharge p t self = (self, inl ValueError).
Proof.
  intro H. split.
  - apply charge_negative. assumption.
  - apply discharge_negative. assumption.
Qed.

Lemma negative_power_is_atomic_witness :
  -7 < 0
  /\ charge (-7) 1 default_battery = (default_battery, inl ValueError)
  /\ discharge (-7) 1 default_battery = (default_battery, inl ValueError).
Proof.
  split; [reflexivity|].
  apply (negative_power_is_atomic default_battery (-7) 1). reflexivity.
Defined.

(** *** Energy accounting of one call *)

(** C6, as stated, fails: with a request above the power rating the
    applied energy is below requested power times duration times
    efficiency although the headroom does not clip it. *)
Lemma power_limit_breaks_equality :
  0 <= 3000 /\ 0 <= 1 /\ in_band default_battery
  /\ ~ charge_conservation_as_specified default_battery 3000 1.
Proof.
  split; [discriminate|]. split; [discriminate|]. split.
  - split; vm_compute; discriminate.
  - intro H.
    destruct (charge_returns default_battery 3000 1) as (b' & E & _).
    + discriminate.
    + vm_compute. discriminate.
    + destruct (H _ _ _ _ _ E) as [_ Heq].
      specialize (Heq eq_refl). vm_compute in Heq. discriminate.
Qed.

(** C6, amended.  For a [charge] call with non-negative requested power
    and duration on a battery within its band (of non-negative charging
    efficiency and non-zero capacity), the call returns
    [applied_power = min(requested_power, battery_power)] and an applied
    energy that is at most
    [requested_power * duration * charging_efficiency]; the applied energy
    equals [applied_power * duration * charging_efficiency] unless it was
    clipped by the headroom, in which case it is the headroom; hence it
    equals [requested_power * duration * charging_efficiency] when neither
    the headroom nor the power rating clips. *)
Theorem charge_conservation
    (self : BatteryEnergyStorageSystem) (p t : Q) :
  0 <= p -> 0 <= t -> in_band self ->
  0 <= charging_efficiency self -> ~ battery_capacity self == 0 ->
  exists self' ap ace e s,
    charge p t self = (self', inr (ap, ace, e, s))
    /\ ap = py_min p (battery_power self)
    /\ ace <= p * t * charging_efficiency self
    /\ (charge_clipped self p t = false ->
        ace == ap * t * charging_efficiency self)
    /\ (charge_clipped self p t = true ->
        ace == max_soc self * battery_capacity self - existing_energy self)
    /\ (charge_clipped self p t = false -> p <= battery_power self ->
        ace == p * t * charging_efficiency self).
Proof.
  intros Hp Ht _ He Hc.
  destruct (charge_returns self p t Hp Hc) as (self' & E & _).
  exists self', (py_min p (battery_power self)), (applied_charge self p t),
    (existing_energy self'), (soc self').
  split; [exact E|]. split; [reflexivity|].
  assert (Hle : charged_after_efficiency self p t
                <= p * t * charging_efficiency self).
  { unfold charged_after_efficiency.
    pose proof (py_min_le_l p (battery_power self)) as Hm.
    assert (H1 : py_min p (battery_power self) * t <= p * t)
      by (apply Qmult_le_compat_r; assumption).
    assert (H2 : charging_efficiency self
                 * (py_min p (battery_power self) * t)
                 <= charging_efficiency self * (p * t)).
    { rewrite !(Qmult_comm (charging_efficiency self)).
      apply Qmult_le_compat_r; assumption. }
    lra. }
  unfold applied_charge.
  destruct (charge_clipped self p t) eqn:Ecl.
  - unfold charge_clipped in Ecl. apply Qltb_true in Ecl.
    split; [lra|]. split; [discriminate|].
    split; [intros _; reflexivity|discriminate].
  - split; [exact Hle|].
    split; [intros _; unfold charged_after_efficiency; ring|].
    split; [discriminate|].
    intros _ HpP. unfold charged_after_efficiency, py_min.
    destruct (battery_power self <? p) eqn:Elt.
    + apply Qltb_true in Elt. lra.
    + ring.
Qed.

Lemma charge_conservation_witness :
  exists self' ap ace e s,
    charge 3000 1 default_battery = (self', inr (ap, ace, e, s))
    /\ ap = py_min 3000 (battery_power default_battery)
    /\ ace <= 3000 * 1 * charging_efficiency default_battery
    /\ (charge_clipped default_battery 3000 1 = false ->
        ace == ap * 1 * charging_efficiency default_battery)
    /\ (charge_clipped default_battery 3000 1 = true ->
        ace == max_soc default_battery * battery_capacity default_battery
               - existing_energy default_battery)
    /\ (charge_clipped default_battery 3000 1 = false ->
        3000 <= battery_power default_battery ->
        ace == 3000 * 1 * charging_efficiency default_battery).
Proof.
  apply (charge_conservation default_battery 3000 1).
  - discriminate.
  - discriminate.
  - split; vm_compute; discriminate.
  - vm_compute. discriminate.
  - vm_compute. discriminate.
Defined.

(** C7.  For a [discharge] call with non-negative requested power and
    duration (on a battery of non-zero capacity, so that the call
    returns), the losses counter increases by exactly
    [applied_power * duration * (1 - discharging_efficiency)] with
    [applied_power = min(requested_power, battery_power)], whether or not
    the delivered energy was clipped by the availability. *)
Theorem discharge_losses
    (self : BatteryEnergyStorageSystem) (p t : Q) :
  0 <= p -> 0 <= t -> ~ battery_capacity self == 0 ->
  exists self' ap ade e s,
    discharge p t self = (self', inr (ap, ade, e, s))
    /\ ap = py_min p (battery_power self)
    /\ total_losses self'
       == total_losses self + ap * t * (1 - discharging_efficiency self).
Proof.
  intros Hp _ Hc.
  destruct (discharge_returns self p t Hp Hc) as (self' & E & _ & El).
  do 5 eexists. split; [exact E|]. split; [reflexivity|].
  rewrite El. reflexivity.
Qed.

Lemma discharge_losses_witness :
  exists self' ap ade e s,
    discharge 3000 1 default_battery = (self', inr (ap, ade, e, s))
    /\ ap = py_min 3000 (battery_power default_battery)
    /\ total_losses self'
       == total_losses default_battery
          + ap * 1 * (1 - discharging_efficiency default_battery).
Proof.
  apply (discharge_losses default_battery 3000 1).
  - discriminate.
  - discriminate.
  - vm_compute. discriminate.
Defined.

(** ** The dispatch simulator *)

Ltac run_monad :=
  unfold bind, ret, raise, the_battery, battery_charge, battery_discharge,
    setitem, py_neg, py_sub, py_add; cbn beta iota.

Tactic Notation "run_monad" "in" hyp(H) :=
  unfold bind, ret, raise, the_battery, battery_charge, battery_discharge,
    setitem, py_neg, py_sub, py_add in H; cbn beta iota in H.

(** What one battery operation does to the state of the run. *)
Lemma battery_charge_run (p : Q) (s : sim_state) :
  battery_charge p s
  = (mkSim (fst (charge p 1 (battery s))) (invoked s ++ [Charge p 1]),
     snd (charge p 1 (battery s))).
Proof.
  unfold battery_charge. destruct (charge p 1 (battery s)). reflexivity.
Qed.

Lemma battery_discharge_run (p : Q) (s : sim_state) :
  battery_discharge p s
  = (mkSim (fst (discharge p 1 (battery s))) (invoked s ++ [Discharge p 1]),
     snd (discharge p 1 (battery s))).
Proof.
  unfold battery_discharge. destruct (discharge p 1 (battery s)). reflexivity.
Qed.

(** The low-price block invokes [charge] once and then raises: either
    [charge] itself raises, or its 4-tuple is refused by the array. *)
Lemma low_price_hour_raises (net : Q) (sl : slots) (s : sim_state) :
  exists s' e p,
    low_price_hour net sl s = (s', inl e)
    /\ invoked_between s s' [Charge p 1].
Proof.
  unfold low_price_hour, invoked_between. run_monad.
  set (p := if 0 <? net then net else battery_power (battery s)).
  destruct (charge p 1 (battery s)) as [b [e|r]]; cbn;
    do 3 eexists; split; reflexivity.
Qed.

(** The high-price block raises too, after at most one [discharge]. *)
Lemma high_price_hour_raises (net : Q) (sl : slots) (s : sim_state) :
  exists s' e ops,
    high_price_hour net sl s = (s', inl e)
    /\ invoked_between s s' ops /\ (List.length ops <= 1)%nat.
Proof.
  unfold high_price_hour, invoked_between. run_monad.
  destruct (net <? 0).
  - destruct (discharge (- net) 1 (battery s)) as [b [e|r]]; cbn;
      do 3 eexists; (split; [reflexivity|]); (split; [reflexivity|]);
      cbn; lia.
  - destruct ((1 # 10) <? soc (battery s)).
    + exists s, AttributeError, []. split; [reflexivity|].
      split; [symmetry; apply app_nil_r|cbn; lia].
    + destruct (discharge 0 1 (battery s)) as [b [e|r]]; cbn;
        do 3 eexists; (split; [reflexivity|]); (split; [reflexivity|]);
        cbn; lia.
Qed.

(** The medium-price block and the simple strategy invoke exactly one
    operation, and what they record on return reconciles with the net
    load. *)
Lemma medium_price_hour_run (net : Q) (sl : slots) (s : sim_state) :
  exists s' r op,
    medium_price_hour net sl s = (s', r)
    /\ invoked_between s s' [op]
    /\ forall sl', r = inr sl' ->
         net == energy_movement sl' + grid_power sl'.
Proof.
  unfold medium_price_hour, invoked_between. run_monad.
  destruct (0 <? net).
  - destruct (charge net 1 (battery s)) as [b [e|r]]; cbn;
      do 3 eexists; (split; [reflexivity|]); (split; [reflexivity|]);
      intros sl' E; inversion E; subst; cbn; ring.
  - destruct (discharge net 1 (battery s)) as [b [e|r]]; cbn;
      do 3 eexists; (split; [reflexivity|]); (split; [reflexivity|]);
      intros sl' E; inversion E; subst; cbn; ring.
Qed.

Lemma simple_hour_run (net : Q) (sl : slots) (s : sim_state) :
  exists s' r op,
    simple_hour net sl s = (s', r)
    /\ invoked_between s s' [op]
    /\ forall sl', r = inr sl' ->
         net == energy_movement sl' + grid_power sl'.
Proof.
  unfold simple_hour, invoked_between. run_monad.
  destruct (0 <? net).
  - destruct (charge net 1 (battery s)) as [b [e|r]]; cbn;
      do 3 eexists; (split; [reflexivity|]); (split; [reflexivity|]);
      intros sl' E; inversion E; subst; cbn; ring.
  - destruct (discharge (- net) 1 (battery s)) as [b [e|r]]; cbn;
      do 3 eexists; (split; [reflexivity|]); (split; [reflexivity|]);
      intros sl' E; inversion E; subst; cbn; ring.
Qed.

(** The two consecutive tests of the price-arbitrage strategy select one
    block: a low-price hour ends in the low-price block. *)
Lemma price_arbitrage_hour_cases
    (prices : list Q) (net price : Q) (sl : slots) (s : sim_state) :
  price_arbitrage_hour prices net price sl s
  = if Qle_bool price (price_threshold_low prices)
    then low_price_hour net sl s
    else if price_threshold_high prices <? price
         then high_price_hour net sl s
         else medium_price_hour net sl s.
Proof.
  unfold price_arbitrage_hour.
  destruct (Qle_bool price (price_threshold_low prices)).
  - destruct (low_price_hour_raises net sl s) as (s' & e & p & E & _).
    unfold bind at 1. rewrite E. reflexivity.
  - unfold bind at 1, ret at 1.
    destruct (price_threshold_high prices <? price); reflexivity.
Qed.

(** C3.  Under the price-arbitrage strategy every hour invokes at most
    one battery operation (one [charge] or one [discharge]) and runs
    exactly one of the three blocks: the low-price block when
    [price <= low], otherwise the high-price block when [price > high],
    otherwise (medium price) the baseline-like block. *)
Theorem one_operation_per_hour
    (prices : list Q) (limit : option Q) (net price : Q) (s : sim_state) :
  (exists ops,
      invoked_between s
        (fst (hour_body "price arbitrage" prices limit net price s)) ops
      /\ (List.length ops <= 1)%nat)
  /\ dispatch "price arbitrage" prices net price zero_slots s
     = if Qle_bool price (price_threshold_low prices)
       then low_price_hour net zero_slots s
       else if price_threshold_high prices <? price
            then high_price_hour net zero_slots s
            else medium_price_hour net zero_slots s.
Proof.
  assert (D : dispatch "price arbitrage" prices net price zero_slots s
              = price_arbitrage_hour prices net price zero_slots s)
    by reflexivity.
  split.
  - unfold hour_body. unfold bind at 1. rewrite D.
    rewrite price_arbitrage_hour_cases.
    destruct (Qle_bool price (price_threshold_low prices)).
    + destruct (low_price_hour_raises net zero_slots s)
        as (s' & e & p & E & Hi).
      rewrite E. exists [Charge p 1]. split; [exact Hi|cbn; lia].
    + destruct (price_threshold_high prices <? price).
      * destruct (high_price_hour_raises net zero_slots s)
          as (s' & e & ops & E & Hi & Hl).
        rewrite E. exists ops. split; assumption.
      * destruct (medium_price_hour_run net zero_slots s)
          as (s' & r & op & E & Hi & _).
        rewrite E. exists [op].
        split; [destruct r; exact Hi|cbn; lia].
  - rewrite D. apply price_arbitrage_hour_cases.
Qed.

(** *** One hour of a run *)

Lemma dispatch_reconciles
    (strategy : string) (prices : list Q) (net price : Q)
    (s s' : sim_state) (sl : slots) :
  known_strategy strategy ->
  dispatch strategy prices net price zero_slots s = (s', inr sl) ->
  net == energy_movement sl + grid_power sl.
Proof.
  intros [K|K] D; subst strategy.
  - change (simple_hour net zero_slots s = (s', inr sl)) in D.
    destruct (simple_hour_run net zero_slots s) as (s1 & r & op & E & _ & H).
    rewrite E in D. inversion D; subst. apply H. reflexivity.
  - change (price_arbitrage_hour prices net price zero_slots s
            = (s', inr sl)) in D.
    rewrite price_arbitrage_hour_cases in D.
    destruct (Qle_bool price (price_threshold_low prices)).
    + destruct (low_price_hour_raises net zero_slots s)
        as (s1 & e & p & E & _).
      rewrite E in D. discriminate.
    + destruct (price_threshold_high prices <? price).
      * destruct (high_price_hour_raises net zero_slots s)
          as (s1 & e & ops & E & _).
        rewrite E in D. discriminate.
      * destruct (medium_price_hour_run net zero_slots s)
          as (s1 & r & op & E & _ & H).
        rewrite E in D. inversion D; subst. apply H. reflexivity.
Qed.

Lemma hour_body_returns
    (strategy : string) (prices : list Q) (limit : option Q) (net price : Q)
    (s s' : sim_state) (sl : slots) :
  hour_body strategy prices limit net price s = (s', inr sl) ->
  electricity_cost sl = grid_power sl * price
  /\ (known_strategy strategy ->
      net == energy_movement sl + grid_power sl).
Proof.
  unfold hour_body. unfold bind at 1.
  destruct (dispatch strategy prices net price zero_slots s)
    as [s1 [e|sl1]] eqn:D; [discriminate|].
  unfold ret. intro E. inversion E; subst. clear E.
  assert (L : match limit with Some _ => sl1 | None => sl1 end = sl1)
    by (destruct limit; reflexivity).
  rewrite L. cbn. split; [reflexivity|].
  intro K. apply (dispatch_reconciles _ _ _ _ _ _ _ K D).
Qed.

(** *** The whole run *)

(** What holds of a row of a returned table. *)
Lemma run_hours_rows
    (strategy : string) (all_prices : list Q) (limit : option Q) :
  forall (pv dem prices : list Q) (s s' : sim_state) (sls : list slots),
    run_hours strategy all_prices limit
      (combine (series_sub pv dem) prices) s = (s', inr sls) ->
    Forall (fun r =>
              electricity_cost (row_slots r)
              = grid_power (row_slots r) * row_electricity_prices r
              /\ (known_strategy strategy -> reconciled r))
      (assemble pv dem prices sls).
Proof.
  induction pv as [|p pv IH]; intros dem prices s s' sls R.
  - constructor.
  - destruct dem as [|d dem]; [constructor|].
    destruct prices as [|c prices]; [constructor|].
    cbn [series_sub combine run_hours] in R.
    unfold bind at 1 in R.
    destruct (hour_body strategy all_prices limit (p - d) c s)
      as [s1 [e|sl]] eqn:H; [discriminate|].
    unfold bind at 1 in R.
    destruct (run_hours strategy all_prices limit
                (combine (series_sub pv dem) prices) s1)
      as [s2 [e|sls']] eqn:T; [discriminate|].
    unfold ret in R. inversion R; subst. clear R.
    cbn [assemble]. constructor.
    + destruct (hour_body_returns _ _ _ _ _ _ _ _ H) as [Hc Hr].
      cbn. split; [exact Hc|].
      intro K. unfold reconciled, row_net_load. cbn. apply Hr, K.
    + apply (IH _ _ _ _ _ T).
Qed.

Lemma run_simulation_rows
    (pv dem prices : list Q) (strategy : string) (limit : option Q)
    (s s' : sim_state) (rows : list result_row) :
  run_simulation pv dem prices strategy limit s = (s', inr rows) ->
  Forall (fun r =>
            electricity_cost (row_slots r)
            = grid_power (row_slots r) * row_electricity_prices r
            /\ (known_strategy strategy -> reconciled r))
    rows.
Proof.
  unfold run_simulation.
  destruct (negb _); [discriminate|].
  unfold bind at 1.
  destruct (run_hours strategy prices limit
              (combine (series_sub pv dem) prices) s)
    as [s1 [e|sls]] eqn:R; [discriminate|].
  unfold ret. intro E. inversion E; subst.
  apply (run_hours_rows _ _ _ _ _ _ _ _ _ R).
Qed.

(** The simple strategy on a battery of non-zero capacity never raises:
    every hour requests a non-negative power. *)
Lemma simple_hours_return (all_prices : list Q) (limit : option Q) :
  forall (hours : list (Q * Q)) (s : sim_state),
    ~ battery_capacity (battery s) == 0 ->
    exists s' sls,
      run_hours "simple" all_prices limit hours s = (s', inr sls)
      /\ List.length sls = List.length hours.
Proof.
  induction hours as [|[net price] hours IH]; intros s Hc.
  - exists s, []. split; reflexivity.
  - cbn [run_hours]. unfold bind at 1.
    assert (H : exists s1 sl,
               hour_body "simple" all_prices limit net price s
               = (s1, inr sl)
               /\ ~ battery_capacity (battery s1) == 0).
    { unfold hour_body. unfold bind at 1.
      change (dispatch "simple" all_prices net price zero_slots s)
        with (simple_hour net zero_slots s).
      unfold simple_hour. run_monad.
      destruct (0 <? net) eqn:En.
      - apply Qltb_true in En.
        destruct (charge_returns (battery s) net 1) as (b & E & _);
          [lra|assumption|].
        rewrite E. cbn. do 2 eexists. split; [reflexivity|]. cbn.
        replace b with (fst (perform (Charge net 1) (battery s)))
          by (cbn [perform]; rewrite E; reflexivity).
        destruct (perform_config (battery s) (Charge net 1)) as [Ec _].
        rewrite Ec. assumption.
      - apply Qltb_false in En.
        destruct (discharge_returns (battery s) (- net) 1) as (b & E & _);
          [lra|assumption|].
        rewrite E. cbn. do 2 eexists. split; [reflexivity|]. cbn.
        replace b with (fst (perform (Discharge (- net) 1) (battery s)))
          by (cbn [perform]; rewrite E; reflexivity).
        destruct (perform_config (battery s) (Discharge (- net) 1))
          as [Ec _].
        rewrite Ec. assumption. }
    destruct H as (s1 & sl & E & Hc1). rewrite E.
    destruct (IH s1 Hc1) as (s2 & sls & E2 & Hl).
    unfold bind at 1. rewrite E2. unfold ret.
    exists s2, (sl :: sls). split; [reflexivity|]. cbn. congruence.
Qed.

Lemma simple_run_returns
    (pv dem prices : list Q) (limit : option Q) (s : sim_state) :
  List.length pv = List.length dem ->
  List.length dem = List.length prices ->
  ~ battery_capacity (battery s) == 0 ->
  exists s' rows, run_simulation pv dem prices "simple" limit s = (s', inr rows).
Proof.
  intros L1 L2 Hc. unfold run_simulation.
  rewrite L1, L2, !Nat.eqb_refl. cbn [andb negb].
  destruct (simple_hours_return prices limit
              (combine (series_sub pv dem) prices) s Hc)
    as (s' & sls & E & _).
  unfold bind. rewrite E. unfold ret. do 2 eexists. reflexivity.
Qed.

(** C2, as stated, fails: the recorded energy movement is the energy after
    the efficiency loss, and the loss is left in the grid power.  With a
    surplus of 10 and a charging efficiency of 0.95 the row records a
    movement of 9.5 (pre-efficiency equivalent 10, the requested power) and
    a grid power of 0.5; 10 + 0.5 is not the net load. *)
Lemma loss_is_left_in_grid_power :
  exists s' row,
    run_simulation [10] [0] [1] "simple" None (mkSim default_battery [])
    = (s', inr [row])
    /\ energy_movement (row_slots row) == 95 # 10
    /\ grid_power (row_slots row) == 5 # 10
    /\ pre_efficiency_equivalent default_battery
         (energy_movement (row_slots row)) == 10
    /\ ~ row_net_load row
         == pre_efficiency_equivalent default_battery
              (energy_movement (row_slots row))
            + grid_power (row_slots row).
Proof.
  do 2 eexists. split; [vm_compute; reflexivity|].
  repeat split; try (vm_compute; reflexivity).
  vm_compute. discriminate.
Qed.

(** C2, amended.  In every run under the ['simple'] or the
    ['price arbitrage'] strategy that returns its table, every row
    satisfies [grid_power = net_load - energy_movement], where
    [net_load = pv_generation - building_demand] and [energy_movement] is
    the recorded value: the energy stored (positive) or delivered
    (negative) after efficiency and clipping. *)
Theorem grid_power_is_net_load_minus_movement
    (pv dem prices : list Q) (strategy : string) (limit : option Q)
    (s s' : sim_state) (rows : list result_row) :
  known_strategy strategy ->
  run_simulation pv dem prices strategy limit s = (s', inr rows) ->
  Forall (fun r =>
            grid_power (row_slots r)
            == row_net_load r - energy_movement (row_slots r))
    rows.
Proof.
  intros K R.
  apply run_simulation_rows in R.
  apply (Forall_impl _ (P := fun r =>
            electricity_cost (row_slots r)
            = grid_power (row_slots r) * row_electricity_prices r
            /\ (known_strategy strategy -> reconciled r))); [|exact R].
  intros r [_ Hr]. specialize (Hr K). unfold reconciled in Hr. lra.
Qed.

Lemma grid_power_is_net_load_minus_movement_witness :
  Forall (fun r =>
            grid_power (row_slots r)
            == row_net_load r - energy_movement (row_slots r))
    (match snd (run_simulation [10; 0; 0] [0; 5; 5] [1; 1; 1] "simple" None
                  (mkSim default_battery [])) with
     | inr rows => rows
     | inl _ => []
     end).
Proof.
  apply (grid_power_is_net_load_minus_movement
           [10; 0; 0] [0; 5; 5] [1; 1; 1] "simple" None
           (mkSim default_battery [])
           (fst (run_simulation [10; 0; 0] [0; 5; 5] [1; 1; 1] "simple" None
                   (mkSim default_battery [])))).
  - left. reflexivity.
  - vm_compute. reflexivity.
Defined.

(** C9, as stated, fails on the sign: in an hour in which energy is drawn
    from the grid at a positive price, the recorded cost is negative.
    With no generation, a demand of 5 and the default battery delivering
    4.75, the remaining 0.25 is imported and the cost recorded at price 1
    is -0.25. *)
Lemma import_is_recorded_as_negative_cost :
  exists s' row,
    run_simulation [0] [5] [1] "simple" None (mkSim default_battery [])
    = (s', inr [row])
    /\ 0 < row_electricity_prices row
    /\ net_import row == 1 # 4
    /\ electricity_cost (row_slots row) == - (1 # 4).
Proof.
  do 2 eexists. split; [vm_compute; reflexivity|].
  repeat split; vm_compute; reflexivity.
Qed.

(** C9, amended.  In every run that returns its table, whatever the
    strategy, the recorded electricity cost of every row is
    [grid_power * price] of that row. *)
Theorem cost_is_grid_power_times_price
    (pv dem prices : list Q) (strategy : string) (limit : option Q)
    (s s' : sim_state) (rows : list result_row) :
  run_simulation pv dem prices strategy limit s = (s', inr rows) ->
  Forall (fun r =>
            electricity_cost (row_slots r)
            = grid_power (row_slots r) * row_electricity_prices r)
    rows.
Proof.
  intro R. apply run_simulation_rows in R.
  apply (Forall_impl _ (P := fun r =>
            electricity_cost (row_slots r)
            = grid_power (row_slots r) * row_electricity_prices r
            /\ (known_strategy strategy -> reconciled r))); [|exact R].
  intros r [Hc _]. exact Hc.
Qed.

Lemma cost_is_grid_power_times_price_witness :
  Forall (fun r =>
            electricity_cost (row_slots r)
            = grid_power (row_slots r) * row_electricity_prices r)
    (match snd (run_simulation [10; 0; 0] [0; 5; 5] [1; 2; 3] "simple" None
                  (mkSim default_battery [])) with
     | inr rows => rows
     | inl _ => []
     end).
Proof.
  apply (cost_is_grid_power_times_price
           [10; 0; 0] [0; 5; 5] [1; 2; 3] "simple" None
           (mkSim default_battery [])
           (fst (run_simulation [10; 0; 0] [0; 5; 5] [1; 2; 3] "simple" None
                   (mkSim default_battery [])))).
  vm_compute. reflexivity.
Defined.

(** *** Medium-price hours against the simple strategy *)

Lemma Qopp_zero_eq (x : Q) : x == 0 -> - x = x.
Proof.
  destruct x as [a b]. unfold Qeq. cbn. intro H.
  assert (a = 0%Z) by lia. subst a. reflexivity.
Qed.

(** Without a deficit the medium-price block is the simple strategy. *)
Lemma medium_matches_simple_without_deficit
    (net : Q) (sl : slots) (s : sim_state) :
  0 <= net -> medium_price_hour net sl s = simple_hour net sl s.
Proof.
  intro H. unfold medium_price_hour, simple_hour.
  destruct (0 <? net) eqn:E; [reflexivity|].
  apply Qltb_false in E.
  assert (Z : net == 0) by lra.
  rewrite (Qopp_zero_eq net Z). reflexivity.
Qed.

Lemma medium_hour_matches_simple_without_deficit
    (prices : list Q) (limit : option Q) (net price : Q) (s : sim_state) :
  price_threshold_low prices < price ->
  price <= price_threshold_high prices ->
  0 <= net ->
  hour_body "price arbitrage" prices limit net price s
  = hour_body "simple" prices limit net price s.
Proof.
  intros Hl Hh Hn. unfold hour_body, bind.
  change (dispatch "price arbitrage" prices net price zero_slots s)
    with (price_arbitrage_hour prices net price zero_slots s).
  change (dispatch "simple" prices net price zero_slots s)
    with (simple_hour net zero_slots s).
  rewrite price_arbitrage_hour_cases.
  apply Qltb_true in Hl. unfold Qltb in Hl. apply negb_true_iff in Hl.
  rewrite Hl.
  apply Qltb_false in Hh. rewrite Hh.
  rewrite medium_matches_simple_without_deficit by assumption.
  reflexivity.
Qed.

(** With a deficit the medium-price block requests the (negative) net
    load itself: [discharge] raises and the battery is untouched, where
    the simple strategy requests the negated net load. *)
Lemma medium_hour_raises_on_deficit
    (prices : list Q) (limit : option Q) (net price : Q) (s : sim_state) :
  price_threshold_low prices < price ->
  price <= price_threshold_high prices ->
  net < 0 ->
  hour_body "price arbitrage" prices limit net price s
  = (mkSim (battery s) (invoked s ++ [Discharge net 1]), inl ValueError).
Proof.
  intros Hl Hh Hn. unfold hour_body.
  change (dispatch "price arbitrage" prices net price zero_slots)
    with (price_arbitrage_hour prices net price zero_slots).
  unfold bind at 1.
  rewrite price_arbitrage_hour_cases.
  apply Qltb_true in Hl. unfold Qltb in Hl. apply negb_true_iff in Hl.
  rewrite Hl.
  apply Qltb_false in Hh. rewrite Hh.
  unfold medium_price_hour.
  assert (E : (0 <? net) = false) by (apply Qltb_false; lra).
  rewrite E. unfold bind at 1. rewrite battery_discharge_run.
  rewrite discharge_negative by assumption. reflexivity.
Qed.

(** C8.  The code at a medium-price hour with a deficit: prices [2; 1; 3]
    give thresholds 1.5 and 2.5, so the first hour (price 2) is a
    medium-price hour; with no generation and a demand of 5 the
    price-arbitrage strategy calls [discharge(-5)], which raises
    ValueError and records nothing, while the simple strategy on the same
    battery calls [discharge(5)] and records a movement of -4.75, a grid
    power of -0.25 and a cost of -0.5. *)
Theorem medium_price_deficit_differs_from_simple :
  let prices := [2; 1; 3] in
  let s := mkSim default_battery [] in
  price_threshold_low prices < 2
  /\ 2 < price_threshold_high prices
  /\ hour_body "price arbitrage" prices None (0 - 5) 2 s
     = (mkSim default_battery [Discharge (0 - 5) 1], inl ValueError)
  /\ exists s' sl,
       hour_body "simple" prices None (0 - 5) 2 s = (s', inr sl)
       /\ invoked s' = [Discharge (- (0 - 5)) 1]
       /\ energy_movement sl == - (475 # 100)
       /\ grid_power sl == - (1 # 4)
       /\ electricity_cost sl == - (1 # 2).
Proof.
  cbv zeta.
  split; [vm_compute; reflexivity|].
  split; [vm_compute; reflexivity|].
  split.
  - apply (medium_hour_raises_on_deficit [2; 1; 3] None (0 - 5) 2
             (mkSim default_battery []));
      vm_compute; congruence.
  - do 2 eexists. split; [vm_compute; reflexivity|].
    repeat split; vm_compute; reflexivity.
Qed.

(** *** The price thresholds and the outcome of a price-arbitrage run *)

Lemma insert_sorted_In (x y : Q) (l : list Q) :
  In y (insert_sorted x l) <-> y = x \/ In y l.
Proof.
  induction l as [|z l IH]; cbn.
  - intuition.
  - destruct (Qle_bool x z); cbn; [intuition|].
    rewrite IH. intuition.
Qed.

Lemma sort_In (y : Q) (l : list Q) : In y (sort l) <-> In y l.
Proof.
  induction l as [|x l IH]; cbn; [reflexivity|].
  rewrite insert_sorted_In, IH. intuition.
Qed.

Lemma insert_sorted_length (x : Q) (l : list Q) :
  List.length (insert_sorted x l) = S (List.length l).
Proof.
  induction l as [|z l IH]; [reflexivity|].
  cbn [insert_sorted]. destruct (Qle_bool x z); [reflexivity|].
  cbn [List.length]. rewrite IH. reflexivity.
Qed.

Lemma sort_length (l : list Q) : List.length (sort l) = List.length l.
Proof.
  induction l as [|x l IH]; [reflexivity|].
  cbn [sort fold_right]. rewrite insert_sorted_length.
  cbn [List.length]. f_equal. exact IH.
Qed.

Lemma insert_sorted_ascending (x : Q) (l : list Q) :
  ascending l -> ascending (insert_sorted x l).
Proof.
  induction 1 as [|z l Hz Hl IH]; cbn [insert_sorted].
  - constructor; constructor.
  - destruct (Qle_bool x z) eqn:E.
    + apply Qle_bool_iff in E. constructor.
      * constructor; [assumption|].
        apply (Forall_impl _ (P := Qle z)); [|assumption].
        intros a Ha. apply (Qle_trans _ z); assumption.
      * constructor; assumption.
    + assert (Hzx : z <= x).
      { apply Qlt_le_weak, Qltb_true. unfold Qltb. rewrite E. reflexivity. }
      constructor; [|assumption].
      apply Forall_forall. intros a Ha.
      apply insert_sorted_In in Ha. destruct Ha as [->|Ha]; [assumption|].
      rewrite Forall_forall in Hz. apply Hz, Ha.
Qed.

Lemma sort_ascending (l : list Q) : ascending (sort l).
Proof.
  induction l as [|x l IH]; cbn [sort fold_right].
  - constructor.
  - apply insert_sorted_ascending, IH.
Qed.

Lemma ascending_nth (l : list Q) :
  ascending l ->
  forall i j : nat,
    (i <= j)%nat -> (j < List.length l)%nat -> nth i l 0 <= nth j l 0.
Proof.
  induction 1 as [|x l Hx Hl IH]; intros i j Hij Hj.
  - cbn in Hj. lia.
  - destruct j as [|j].
    + assert (i = 0%nat) by lia. subst i. apply Qle_refl.
    + cbn [List.length] in Hj. destruct i as [|i]; cbn [nth].
      * rewrite Forall_forall in Hx. apply Hx, nth_In. lia.
      * apply IH; lia.
Qed.

(** The low threshold is at least one of the prices: the one at the lower
    of the two ranks it interpolates. *)
Lemma low_threshold_attained (prices : list Q) :
  prices <> [] ->
  exists x, In x prices /\ x <= price_threshold_low prices.
Proof.
  intro Hne.
  unfold price_threshold_low, percentile.
  set (s := sort prices).
  set (n := Z.of_nat (List.length s)).
  set (v := (inject_Z n - 1) * 25 / 100).
  set (lo := Qfloor v).
  set (hi := Z.min (lo + 1) (n - 1)).
  assert (Hn : (1 <= n)%Z).
  { unfold n, s. rewrite sort_length.
    destruct prices; [congruence|]. cbn [List.length]. lia. }
  assert (Hn' : 1 <= inject_Z n).
  { change 1 with (inject_Z 1). rewrite <- Zle_Qle. exact Hn. }
  assert (Hv0 : 0 <= v).
  { unfold v. apply Qle_shift_div_l; [reflexivity|]. lra. }
  assert (Hv1 : v <= inject_Z (n - 1)).
  { assert (E : inject_Z (n - 1) == inject_Z n - 1)
      by (unfold Z.sub; rewrite inject_Z_plus; reflexivity).
    rewrite E. unfold v.
    apply Qle_shift_div_r; [reflexivity|]. lra. }
  assert (Hlo0 : (0 <= lo)%Z).
  { unfold lo. change 0%Z with (Qfloor 0). apply Qfloor_resp_le, Hv0. }
  assert (Hlo1 : (lo <= n - 1)%Z).
  { unfold lo. rewrite <- (Qfloor_Z (n - 1)). apply Qfloor_resp_le, Hv1. }
  assert (Hg : 0 <= v - inject_Z lo).
  { pose proof (Qfloor_le v) as H. fold lo in H. lra. }
  assert (Hlen : (Z.to_nat hi < List.length s)%nat) by (unfold hi, n in *; lia).
  assert (Hlh : (Z.to_nat lo <= Z.to_nat hi)%nat) by (unfold hi; lia).
  exists (nth (Z.to_nat lo) s 0). split.
  - apply (sort_In _ prices). fold s. apply nth_In. lia.
  - pose proof (ascending_nth s (sort_ascending prices) _ _ Hlh Hlen) as Ha.
    assert (H0 : 0 <= (nth (Z.to_nat hi) s 0 - nth (Z.to_nat lo) s 0)
                      * (v - inject_Z lo)).
    { apply Qmult_le_0_compat; [lra|assumption]. }
    lra.
Qed.

Lemma hour_returns_not_low
    (prices : list Q) (limit : option Q) (net price : Q)
    (s s' : sim_state) (sl : slots) :
  hour_body "price arbitrage" prices limit net price s = (s', inr sl) ->
  ~ price <= price_threshold_low prices.
Proof.
  unfold hour_body, bind.
  change (dispatch "price arbitrage" prices net price zero_slots s)
    with (price_arbitrage_hour prices net price zero_slots s).
  rewrite price_arbitrage_hour_cases.
  destruct (Qle_bool price (price_threshold_low prices)) eqn:E.
  - destruct (low_price_hour_raises net zero_slots s)
      as (s1 & e & p & R & _).
    rewrite R. discriminate.
  - intros _ Hle. apply Qle_bool_iff in Hle. congruence.
Qed.

Lemma price_arbitrage_hours_raise (prices : list Q) (limit : option Q) :
  forall hours : list (Q * Q),
    (exists net price,
        In (net, price) hours /\ price <= price_threshold_low prices) ->
    forall s,
    exists s' e,
      run_hours "price arbitrage" prices limit hours s = (s', inl e).
Proof.
  induction hours as [|[n p] rest IH]; intros (net & price & Hin & Hle) s.
  - destruct Hin.
  - cbn [run_hours]. unfold bind at 1.
    destruct (hour_body "price arbitrage" prices limit n p s)
      as [s1 [e|sl]] eqn:H.
    + exists s1, e. reflexivity.
    + apply hour_returns_not_low in H.
      destruct Hin as [Heq|Hin].
      * inversion Heq; subst. contradiction.
      * destruct (IH (ex_intro _ net (ex_intro _ price (conj Hin Hle))) s1)
          as (s2 & e & R).
        unfold bind at 1. rewrite R. exists s2, e. reflexivity.
Qed.

Lemma series_sub_length (a b : list Q) :
  List.length a = List.length b ->
  List.length (series_sub a b) = List.length a.
Proof.
  revert b. induction a as [|x a IH]; intros [|y b] L;
    cbn in *; try congruence.
  f_equal. apply IH. congruence.
Qed.

Lemma in_combine_snd (l : list Q) (prices : list Q) (x : Q) :
  List.length l = List.length prices ->
  In x prices -> exists n, In (n, x) (combine l prices).
Proof.
  revert l. induction prices as [|c prices IH]; intros [|n l] L Hin;
    cbn in *; try contradiction; try discriminate.
  destruct Hin as [->|Hin].
  - exists n. left. reflexivity.
  - destruct (IH l) as (m & Hm); [congruence|assumption|].
    exists m. right. exact Hm.
Qed.

(** A price-arbitrage run over a non-empty series never returns its
    table: the lengths differ, or some hour raises, at the latest the
    first hour whose price is at most the low threshold. *)
Lemma price_arbitrage_run_raises
    (pv dem prices : list Q) (limit : option Q) (s : sim_state) :
  prices <> [] ->
  exists s' e,
    run_simulation pv dem prices "price arbitrage" limit s = (s', inl e).
Proof.
  intro Hne. unfold run_simulation.
  destruct (Nat.eqb (List.length pv) (List.length dem)) eqn:L1;
    [|exists s, ValueError; reflexivity].
  destruct (Nat.eqb (List.length dem) (List.length prices)) eqn:L2;
    [|exists s, ValueError; reflexivity].
  cbn [andb negb].
  apply Nat.eqb_eq in L1. apply Nat.eqb_eq in L2.
  destruct (low_threshold_attained prices Hne) as (x & Hin & Hle).
  destruct (in_combine_snd (series_sub pv dem) prices x) as (n & Hn);
    [rewrite series_sub_length; congruence|assumption|].
  destruct (price_arbitrage_hours_raise prices limit
              (combine (series_sub pv dem) prices)
              (ex_intro _ n (ex_intro _ x (conj Hn Hle))) s)
    as (s' & e & R).
  unfold bind. rewrite R. exists s', e. reflexivity.
Qed.

(** ** Further properties of the battery *)

Lemma py_min_le_r (a b : Q) : py_min a b <= b.
Proof.
  unfold py_min. destruct (b <? a) eqn:E.
  - lra.
  - apply Qltb_false in E. assumption.
Qed.

(** The complete effect of a call that passes the sign test on a battery
    of non-zero capacity. *)
Lemma charge_on_return (self : BatteryEnergyStorageSystem) (p t : Q) :
  0 <= p -> ~ battery_capacity self == 0 ->
  let ap := py_min p (battery_power self) in
  let ac := applied_charge self p t in
  let e := existing_energy self + ac in
  charge p t self
  = (mkBattery (battery_capacity self) (battery_power self)
       (charging_efficiency self) (discharging_efficiency self)
       (min_soc self) (max_soc self)
       e (e / battery_capacity self)
       (total_charged self + ac) (total_discharged self)
       (total_losses self + ap * t - ac),
     inr (ap, ac, e, e / battery_capacity self)).
Proof.
  intros Hp Hc. cbv zeta. unfold charge.
  apply Qltb_false in Hp. rewrite Hp.
  cbn [set_existing_energy battery_capacity].
  apply Qeq_bool_false in Hc. rewrite Hc. reflexivity.
Qed.

Lemma discharge_on_return (self : BatteryEnergyStorageSystem) (p t : Q) :
  0 <= p -> ~ battery_capacity self == 0 ->
  let ap := py_min p (battery_power self) in
  let ad := applied_discharge self p t in
  let e := existing_energy self - ad in
  discharge p t self
  = (mkBattery (battery_capacity self) (battery_power self)
       (charging_efficiency self) (discharging_efficiency self)
       (min_soc self) (max_soc self)
       e (e / battery_capacity self)
       (total_charged self) (total_discharged self + ad)
       (total_losses self + ap * t * (1 - discharging_efficiency self)),
     inr (ap, ad, e, e / battery_capacity self)).
Proof.
  intros Hp Hc. cbv zeta. unfold discharge.
  apply Qltb_false in Hp. rewrite Hp.
  cbn [set_existing_energy battery_capacity].
  apply Qeq_bool_false in Hc. rewrite Hc. reflexivity.
Qed.

(** X1.  Conservation of one [discharge] call, the counterpart of the
    property of [charge]: with non-negative power, duration and
    discharging efficiency on a battery of non-zero capacity the call
    returns [applied_power = min(requested, battery_power)] and a delivered
    energy of at most [requested * duration * efficiency]; the delivered
    energy is [applied_power * duration * efficiency] unless that exceeds
    the availability [stored - min_soc * capacity], in which case it is the
    availability; the stored energy goes down by exactly the delivered
    energy and the discharged counter up by it. *)
Theorem discharge_conservation
    (self : BatteryEnergyStorageSystem) (p t : Q) :
  0 <= p -> 0 <= t ->
  0 <= discharging_efficiency self -> ~ battery_capacity self == 0 ->
  exists self' ap ade e s,
    discharge p t self = (self', inr (ap, ade, e, s))
    /\ ap = py_min p (battery_power self)
    /\ ade <= p * t * discharging_efficiency self
    /\ (discharge_clipped self p t = false ->
        ade == ap * t * discharging_efficiency self)
    /\ (discharge_clipped self p t = true ->
        ade == existing_energy self - min_soc self * battery_capacity self)
    /\ existing_energy self' == existing_energy self - ade
    /\ e = existing_energy self'
    /\ total_discharged self' == total_discharged self + ade.
Proof.
  intros Hp Ht He Hc.
  pose proof (discharge_on_return self p t Hp Hc) as E. cbv zeta in E.
  do 5 eexists. split; [exact E|]. cbn.
  split; [reflexivity|].
  assert (Hle : discharged_after_efficiency self p t
                <= p * t * discharging_efficiency self).
  { unfold discharged_after_efficiency.
    pose proof (py_min_le_l p (battery_power self)) as Hm.
    apply Qmult_le_compat_r; [|assumption].
    apply Qmult_le_compat_r; assumption. }
  unfold applied_discharge.
  destruct (discharge_clipped self p t) eqn:Ecl.
  - unfold discharge_clipped in Ecl. apply Qltb_true in Ecl.
    split; [lra|]. split; [discriminate|].
    split; [intros _; reflexivity|].
    split; [reflexivity|]. split; reflexivity.
  - split; [exact Hle|].
    split; [intros _; reflexivity|].
    split; [discriminate|].
    split; [reflexivity|]. split; reflexivity.
Qed.

Lemma discharge_conservation_witness :
  exists self' ap ade e s,
    discharge 3000 1 default_battery = (self', inr (ap, ade, e, s))
    /\ ap = py_min 3000 (battery_power default_battery)
    /\ ade <= 3000 * 1 * discharging_efficiency default_battery
    /\ (discharge_clipped default_battery 3000 1 = false ->
        ade == ap * 1 * discharging_efficiency default_battery)
    /\ (discharge_clipped default_battery 3000 1 = true ->
        ade == existing_energy default_battery
               - min_soc default_battery * battery_capacity default_battery)
    /\ existing_energy self' == existing_energy default_battery - ade
    /\ e = existing_energy self'
    /\ total_discharged self' == total_discharged default_battery + ade.
Proof.
  apply (discharge_conservation default_battery 3000 1).
  - discriminate.
  - discriminate.
  - vm_compute. discriminate.
  - vm_compute. discriminate.
Defined.

(** The applied energy never exceeds what the rating allows over the
    duration, nor the energy before clipping. *)
Lemma applied_charge_le_rated (self : BatteryEnergyStorageSystem) (p t : Q) :
  0 <= t -> 0 <= charging_efficiency self ->
  applied_charge self p t <= charged_after_efficiency self p t
  /\ charged_after_efficiency self p t
     <= charging_efficiency self * (battery_power self * t).
Proof.
  intros Ht He. split.
  - unfold applied_charge, charge_clipped.
    destruct (charging_availability self <? charged_after_efficiency self p t)
      eqn:E; [apply Qltb_true in E|]; lra.
  - unfold charged_after_efficiency.
    pose proof (py_min_le_r p (battery_power self)) as Hm.
    rewrite !(Qmult_comm (charging_efficiency self)).
    apply Qmult_le_compat_r; [|assumption].
    apply Qmult_le_compat_r; assumption.
Qed.

Lemma applied_discharge_le_rated
    (self : BatteryEnergyStorageSystem) (p t : Q) :
  0 <= t -> 0 <= discharging_efficiency self ->
  applied_discharge self p t <= discharged_after_efficiency self p t
  /\ discharged_after_efficiency self p t
     <= battery_power self * t * discharging_efficiency self.
Proof.
  intros Ht He. split.
  - unfold applied_discharge, discharge_clipped.
    destruct (discharging_availability self
              <? discharged_after_efficiency self p t)
      eqn:E; [apply Qltb_true in E|]; lra.
  - unfold discharged_after_efficiency.
    pose proof (py_min_le_r p (battery_power self)) as Hm.
    apply Qmult_le_compat_r; [|assumption].
    apply Qmult_le_compat_r; assumption.
Qed.

(** X2.  The power rating bounds the energy of every call: on a battery
    within its band, of non-zero capacity, with non-negative rating and
    efficiencies, a call with non-negative power and duration returns an
    applied power of at most [battery_power] and an applied energy that is
    non-negative and at most [battery_power * duration] times the
    efficiency, however large the request. *)
Theorem rating_bounds_applied_energy
    (self : BatteryEnergyStorageSystem) (p t : Q) :
  0 <= p -> 0 <= t -> in_band self ->
  0 <= battery_power self ->
  0 <= charging_efficiency self -> 0 <= discharging_efficiency self ->
  ~ battery_capacity self == 0 ->
  (exists self' ap ace e s,
      charge p t self = (self', inr (ap, ace, e, s))
      /\ ap <= battery_power self
      /\ 0 <= ace
      /\ ace <= charging_efficiency self * (battery_power self * t))
  /\ (exists self' ap ade e s,
         discharge p t self = (self', inr (ap, ade, e, s))
         /\ ap <= battery_power self
         /\ 0 <= ade
         /\ ade <= battery_power self * t * discharging_efficiency self).
Proof.
  intros Hp Ht [Hlo Hhi] HP Hc Hd Hcap.
  destruct (applied_charge_bounds self p t Hp Ht HP Hc Hhi) as [C0 _].
  destruct (applied_charge_le_rated self p t Ht Hc) as [C1 C2].
  destruct (applied_discharge_bounds self p t Hp Ht HP Hd Hlo) as [D0 _].
  destruct (applied_discharge_le_rated self p t Ht Hd) as [D1 D2].
  pose proof (py_min_le_r p (battery_power self)) as Hm.
  split.
  - pose proof (charge_on_return self p t Hp Hcap) as E. cbv zeta in E.
    do 5 eexists. split; [exact E|]. repeat split; [assumption|assumption|lra].
  - pose proof (discharge_on_return self p t Hp Hcap) as E. cbv zeta in E.
    do 5 eexists. split; [exact E|]. repeat split; [assumption|assumption|lra].
Qed.

Lemma rating_bounds_applied_energy_witness :
  (exists self' ap ace e s,
      charge 9000 (1 # 2) default_battery = (self', inr (ap, ace, e, s))
      /\ ap <= battery_power default_battery
      /\ 0 <= ace
      /\ ace <= charging_efficiency default_battery
                * (battery_power default_battery * (1 # 2)))
  /\ (exists self' ap ade e s,
         discharge 9000 (1 # 2) default_battery = (self', inr (ap, ade, e, s))
         /\ ap <= battery_power default_battery
         /\ 0 <= ade
         /\ ade <= battery_power default_battery * (1 # 2)
                   * discharging_efficiency default_battery).
Proof.
  apply (rating_bounds_applied_energy default_battery 9000 (1 # 2)).
  - discriminate.
  - discriminate.
  - split; vm_compute; discriminate.
  - vm_compute. discriminate.
  - vm_compute. discriminate.
  - vm_compute. discriminate.
  - vm_compute. discriminate.
Defined.

Lemma perform_sound_config (self : BatteryEnergyStorageSystem) (c : call) :
  sound_config self -> sound_config (fst (perform c self)).
Proof.
  unfold sound_config.
  destruct (perform_config self c) as (_ & EP & Ec & Ed & _ & _).
  rewrite EP, Ec, Ed. trivial.
Qed.

(** X4.  A request of zero power or of zero duration moves no energy: on
    a battery within its band, with non-negative rating and non-zero
    capacity, [charge] and [discharge] return an applied energy of 0 and
    leave the stored energy and the three counters at their values; the
    state of charge is reset to stored energy over capacity. *)
Theorem zero_request_moves_nothing
    (self : BatteryEnergyStorageSystem) (c : call) :
  match c with Charge p t | Discharge p t => 0 <= p /\ (p == 0 \/ t == 0) end ->
  in_band self -> 0 <= battery_power self ->
  ~ battery_capacity self == 0 ->
  exists self' r,
    perform c self = (self', inr r)
    /\ item1 r == 0
    /\ existing_energy self' == existing_energy self
    /\ soc self' == existing_energy self / battery_capacity self
    /\ total_charged self' == total_charged self
    /\ total_discharged self' == total_discharged self
    /\ total_losses self' == total_losses self.
Proof.
  intros Hc [Hlo Hhi] HP Hcap.
  assert (Hz : forall p t, 0 <= p -> p == 0 \/ t == 0 ->
                           py_min p (battery_power self) * t == 0).
  { intros p t Hp [H|H].
    - assert (Hm : py_min p (battery_power self) == 0).
      { pose proof (py_min_le_l p (battery_power self)).
        pose proof (py_min_nonneg p (battery_power self) Hp HP). lra. }
      rewrite Hm. ring.
    - rewrite H. ring. }
  destruct c as [p t|p t]; destruct Hc as [Hp Hpt]; cbn [perform];
    specialize (Hz p t Hp Hpt).
  - pose proof (charge_on_return self p t Hp Hcap) as E. cbv zeta in E.
    assert (Ha : applied_charge self p t == 0).
    { unfold applied_charge, charge_clipped.
      assert (H0 : charged_after_efficiency self p t == 0)
        by (unfold charged_after_efficiency; rewrite Hz; ring).
      destruct (charging_availability self
                <? charged_after_efficiency self p t) eqn:El;
        [|exact H0].
      apply Qltb_true in El. unfold charging_availability in *. lra. }
    do 2 eexists. split; [exact E|]. cbn.
    rewrite Ha, Hz. repeat split; try reflexivity; try ring.
    apply Qmult_comp; [ring|reflexivity].
  - pose proof (discharge_on_return self p t Hp Hcap) as E. cbv zeta in E.
    assert (Ha : applied_discharge self p t == 0).
    { unfold applied_discharge, discharge_clipped.
      assert (H0 : discharged_after_efficiency self p t == 0)
        by (unfold discharged_after_efficiency; rewrite Hz; ring).
      destruct (discharging_availability self
                <? discharged_after_efficiency self p t) eqn:El;
        [|exact H0].
      apply Qltb_true in El. unfold discharging_availability in *. lra. }
    do 2 eexists. split; [exact E|]. cbn.
    rewrite Ha, Hz. repeat split; try reflexivity; try ring.
    apply Qmult_comp; [ring|reflexivity].
Qed.

Lemma zero_request_moves_nothing_witness :
  exists self' r,
    perform (Discharge 500 0) default_battery = (self', inr r)
    /\ item1 r == 0
    /\ existing_energy self' == existing_energy default_battery
    /\ soc self'
       == existing_energy default_battery / battery_capacity default_battery
    /\ total_charged self' == total_charged default_battery
    /\ total_discharged self' == total_discharged default_battery
    /\ total_losses self' == total_losses default_battery.
Proof.
  apply (zero_request_moves_nothing default_battery (Discharge 500 0)).
  - split; [discriminate|right; reflexivity].
  - split; vm_compute; discriminate.
  - vm_compute. discriminate.
  - vm_compute. discriminate.
Defined.

(** ** Further properties of the simulator *)

(** With Python numbers a call on a battery of capacity 0 raises while
    recomputing the state of charge. *)
Lemma perform_zero_capacity (self : BatteryEnergyStorageSystem) (c : call) :
  battery_capacity self == 0 ->
  exists e, snd (perform c self) = inl e.
Proof.
  intro Hz. apply Qeq_bool_iff in Hz.
  destruct c as [p t|p t]; cbn [perform]; [unfold charge|unfold discharge];
    (destruct (p <? 0); [exists ValueError; reflexivity|]);
    cbn [set_existing_energy battery_capacity]; rewrite Hz;
    exists ZeroDivisionError; reflexivity.
Qed.

(** What an hour of the simple strategy has done when it returns. *)
Lemma simple_hour_returned
    (net : Q) (sl0 : slots) (s s' : sim_state) (sl : slots) :
  simple_hour net sl0 s = (s', inr sl) ->
  let b := battery s in
  let b' := fst (perform (simple_request net) b) in
  ~ battery_capacity b == 0
  /\ s' = mkSim b' (invoked s ++ [simple_request net])
  /\ battery_soc sl = soc b'
  /\ battery_energy sl = existing_energy b'
  /\ electricity_cost sl = electricity_cost sl0
  /\ (if 0 <? net
      then energy_movement sl = applied_charge b net 1
           /\ grid_power sl = net - applied_charge b net 1
      else energy_movement sl = - applied_discharge b (- net) 1
           /\ grid_power sl = net + applied_discharge b (- net) 1).
Proof.
  intro H. cbv zeta.
  assert (Hcap : ~ battery_capacity (battery s) == 0).
  { intro Hz.
    destruct (perform_zero_capacity (battery s) (simple_request net) Hz)
      as [e He].
    unfold simple_hour, simple_request in *.
    destruct (0 <? net); cbn [perform] in He; unfold bind at 1 in H;
      [rewrite battery_charge_run in H|rewrite battery_discharge_run in H];
      rewrite He in H; discriminate. }
  split; [exact Hcap|].
  unfold simple_hour, simple_request in *.
  destruct (0 <? net) eqn:En; cbn [perform].
  - apply Qltb_true in En.
    assert (Hp : 0 <= net) by lra.
    pose proof (charge_on_return (battery s) net 1 Hp Hcap) as E.
    cbv zeta in E.
    unfold bind at 1 in H. rewrite battery_charge_run in H.
    rewrite E in *. cbn in H. inversion H; subst.
    cbn. repeat split.
  - apply Qltb_false in En.
    assert (Hp : 0 <= - net) by lra.
    pose proof (discharge_on_return (battery s) (- net) 1 Hp Hcap) as E.
    cbv zeta in E.
    unfold bind at 1 in H. rewrite battery_discharge_run in H.
    rewrite E in *. cbn in H. inversion H; subst.
    cbn. repeat split.
Qed.

Lemma simple_hour_body_returned
    (prices : list Q) (limit : option Q) (net price : Q)
    (s s' : sim_state) (sl : slots) :
  hour_body "simple" prices limit net price s = (s', inr sl) ->
  exists sl1,
    simple_hour net zero_slots s = (s', inr sl1)
    /\ sl = store_cost (grid_power sl1 * price) sl1.
Proof.
  unfold hour_body, bind.
  change (dispatch "simple" prices net price zero_slots s)
    with (simple_hour net zero_slots s).
  destruct (simple_hour net zero_slots s) as [s1 [e|sl1]];
    [discriminate|].
  unfold ret. intro E. inversion E; subst.
  exists sl1. split; [reflexivity|]. destruct limit; reflexivity.
Qed.

Lemma run_simulation_returned
    (pv dem prices : list Q) (strategy : string) (limit : option Q)
    (s s' : sim_state) (rows : list result_row) :
  run_simulation pv dem prices strategy limit s = (s', inr rows) ->
  List.length pv = List.length dem
  /\ List.length dem = List.length prices
  /\ exists sls,
       run_hours strategy prices limit
         (combine (series_sub pv dem) prices) s = (s', inr sls)
       /\ rows = assemble pv dem prices sls.
Proof.
  unfold run_simulation.
  destruct (Nat.eqb (List.length pv) (List.length dem)) eqn:L1;
    [|discriminate].
  destruct (Nat.eqb (List.length dem) (List.length prices)) eqn:L2;
    [|discriminate].
  cbn [andb negb]. apply Nat.eqb_eq in L1. apply Nat.eqb_eq in L2.
  unfold bind.
  destruct (run_hours strategy prices limit
              (combine (series_sub pv dem) prices) s)
    as [s1 [e|sls]]; [discriminate|].
  unfold ret. intro E. inversion E; subst.
  split; [assumption|]. split; [assumption|].
  exists sls. split; reflexivity.
Qed.

(** X9.  Series of different lengths are refused before anything else
    happens: [run_simulation] raises ValueError, whatever the strategy,
    without invoking the battery or changing it. *)
Theorem length_mismatch_is_refused
    (pv dem prices : list Q) (strategy : string) (limit : option Q)
    (s : sim_state) :
  List.length pv <> List.length dem
  \/ List.length dem <> List.length prices ->
  run_simulation pv dem prices strategy limit s = (s, inl ValueError).
Proof.
  intros [H|H]; unfold run_simulation; apply Nat.eqb_neq in H; rewrite H.
  - reflexivity.
  - rewrite andb_false_r. reflexivity.
Qed.

Lemma length_mismatch_is_refused_witness :
  run_simulation [10; 0] [0; 5] [1] "simple" None (mkSim default_battery [])
  = (mkSim default_battery [], inl ValueError).
Proof.
  apply length_mismatch_is_refused. right. cbn. discriminate.
Defined.

Lemma last_cons_default {A : Type} (l : list A) (x d : A) :
  last (x :: l) d = last l x.
Proof.
  revert x d. induction l as [|y l IH]; intros x d; [reflexivity|].
  change (last (x :: y :: l) d) with (last (y :: l) d).
  rewrite IH. symmetry. apply IH.
Qed.

Lemma simple_hours_log (all_prices : list Q) (limit : option Q) :
  forall (hours : list (Q * Q)) (s s' : sim_state) (sls : list slots),
    run_hours "simple" all_prices limit hours s = (s', inr sls) ->
    invoked s'
    = invoked s ++ map (fun h => simple_request (fst h)) hours
    /\ battery s'
       = last (states_after (map (fun h => simple_request (fst h)) hours)
                 (battery s)) (battery s)
    /\ List.length sls = List.length hours.
Proof.
  induction hours as [|[net price] hours IH]; intros s s' sls Hr.
  - cbn in Hr. unfold ret in Hr. inversion Hr; subst. cbn.
    rewrite app_nil_r. repeat split.
  - cbn [run_hours] in Hr. unfold bind at 1 in Hr.
    destruct (hour_body "simple" all_prices limit net price s)
      as [s1 [e|sl]] eqn:H; [discriminate|].
    unfold bind at 1 in Hr.
    destruct (run_hours "simple" all_prices limit hours s1)
      as [s2 [e|sls']] eqn:T; [discriminate|].
    unfold ret in Hr. inversion Hr; subst.
    destruct (simple_hour_body_returned _ _ _ _ _ _ _ H) as (sl1 & H1 & _).
    destruct (simple_hour_returned _ _ _ _ _ H1) as (_ & Es & _).
    destruct (IH _ _ _ T) as (Hi & Hb & Hl).
    subst s1. cbn [invoked battery] in *.
    cbn [map fst states_after List.length].
    split; [rewrite Hi, <- app_assoc; reflexivity|].
    split; [|congruence].
    rewrite Hb. symmetry. apply last_cons_default.
Qed.

Lemma assemble_columns :
  forall (pv dem prices : list Q) (sls : list slots),
    List.length pv = List.length dem ->
    List.length dem = List.length prices ->
    List.length sls = List.length prices ->
    map row_pv_generation (assemble pv dem prices sls) = pv
    /\ map row_building_demand (assemble pv dem prices sls) = dem
    /\ map row_electricity_prices (assemble pv dem prices sls) = prices
    /\ map row_slots (assemble pv dem prices sls) = sls.
Proof.
  induction pv as [|p pv IH]; intros [|d dem] [|c prices] [|sl sls] L1 L2 L3;
    cbn in *; try discriminate; [repeat split|].
  destruct (IH dem prices sls) as (H1 & H2 & H3 & H4); try congruence.
  rewrite H1, H2, H3, H4. repeat split.
Qed.

Lemma map_request_combine (l prices : list Q) :
  List.length l = List.length prices ->
  map (fun h : Q * Q => simple_request (fst h)) (combine l prices)
  = map simple_request l.
Proof.
  revert prices. induction l as [|x l IH]; intros [|c prices] L;
    cbn in *; try discriminate; [reflexivity|].
  f_equal. apply IH. congruence.
Qed.

Lemma combine_sub_length (pv dem prices : list Q) :
  List.length pv = List.length dem ->
  List.length dem = List.length prices ->
  List.length (combine (series_sub pv dem) prices) = List.length prices.
Proof.
  intros L1 L2. rewrite length_combine, series_sub_length by assumption.
  lia.
Qed.

(** X10.  The table of a simple run: on series of numbers of equal
    length over one index and a battery of non-zero capacity the simple
    strategy returns one row per
    hour, in order, carrying the three input values of the hour, having
    invoked exactly one battery operation per hour: a charge with the net
    load in a surplus hour, a discharge with the negated net load
    otherwise; the battery it leaves is the battery after these calls. *)
Theorem simple_run_table
    (pv dem prices : list Q) (limit : option Q) (s : sim_state) :
  List.length pv = List.length dem ->
  List.length dem = List.length prices ->
  ~ battery_capacity (battery s) == 0 ->
  exists s' rows,
    run_simulation pv dem prices "simple" limit s = (s', inr rows)
    /\ map row_pv_generation rows = pv
    /\ map row_building_demand rows = dem
    /\ map row_electricity_prices rows = prices
    /\ invoked s' = invoked s ++ map simple_request (series_sub pv dem)
    /\ battery s'
       = last (states_after (map simple_request (series_sub pv dem))
                 (battery s)) (battery s).
Proof.
  intros L1 L2 Hcap.
  destruct (simple_hours_return prices limit
              (combine (series_sub pv dem) prices) s Hcap)
    as (s' & sls & E & Hl).
  destruct (simple_hours_log _ _ _ _ _ _ E) as (Hi & Hb & _).
  assert (Hm : map (fun h : Q * Q => simple_request (fst h))
                 (combine (series_sub pv dem) prices)
               = map simple_request (series_sub pv dem)).
  { apply map_request_combine. rewrite series_sub_length; congruence. }
  rewrite Hm in Hi, Hb.
  rewrite combine_sub_length in Hl by assumption.
  destruct (assemble_columns pv dem prices sls L1 L2 Hl) as (C1 & C2 & C3 & _).
  exists s', (assemble pv dem prices sls).
  split.
  - unfold run_simulation. rewrite L1, L2, !Nat.eqb_refl. cbn [andb negb].
    unfold bind. rewrite E. reflexivity.
  - repeat split; assumption.
Qed.

Lemma simple_run_table_witness :
  exists s' rows,
    run_simulation [10; 0; 0] [0; 5; 5] [1; 1; 1] "simple" None
      (mkSim default_battery []) = (s', inr rows)
    /\ map row_pv_generation rows = [10; 0; 0]
    /\ map row_building_demand rows = [0; 5; 5]
    /\ map row_electricity_prices rows = [1; 1; 1]
    /\ invoked s'
       = [] ++ map simple_request (series_sub [10; 0; 0] [0; 5; 5])
    /\ battery s'
       = last (states_after
                 (map simple_request (series_sub [10; 0; 0] [0; 5; 5]))
                 default_battery) default_battery.
Proof.
  apply (simple_run_table [10; 0; 0] [0; 5; 5] [1; 1; 1] None
           (mkSim default_battery [])).
  - reflexivity.
  - reflexivity.
  - vm_compute. discriminate.
Defined.

Lemma unknown_strategy_hours
    (strategy : string) (all_prices : list Q) (limit : option Q) :
  strategy <> "simple"%string -> strategy <> "price arbitrage"%string ->
  forall (hours : list (Q * Q)) (s : sim_state),
    run_hours strategy all_prices limit hours s
    = (s, inr (map (fun h => store_cost (0 * snd h) zero_slots) hours)).
Proof.
  intros N1 N2. apply String.eqb_neq in N1. apply String.eqb_neq in N2.
  induction hours as [|[net price] hours IH]; intro s; [reflexivity|].
  cbn [run_hours map snd]. unfold bind at 1.
  assert (H : hour_body strategy all_prices limit net price s
              = (s, inr (store_cost (0 * price) zero_slots))).
  { unfold hour_body, dispatch. rewrite N1, N2. unfold bind, ret.
    destruct limit; reflexivity. }
  rewrite H. unfold bind at 1. rewrite IH. reflexivity.
Qed.

(** X11.  A strategy name other than ['simple'] and ['price arbitrage'] is
    not an error: the run returns a table with one row per hour in which
    energy movement, state of charge, stored energy, grid power and cost
    are all zero, and the battery is neither invoked nor changed.  The
    name ['price_arbitrage'] given in the docstring is such a name. *)
Theorem unknown_strategy_records_zeros
    (pv dem prices : list Q) (strategy : string) (limit : option Q)
    (s : sim_state) :
  strategy <> "simple"%string -> strategy <> "price arbitrage"%string ->
  List.length pv = List.length dem ->
  List.length dem = List.length prices ->
  exists rows,
    run_simulation pv dem prices strategy limit s = (s, inr rows)
    /\ List.length rows = List.length pv
    /\ Forall (fun r =>
                 energy_movement (row_slots r) = 0
                 /\ battery_soc (row_slots r) = 0
                 /\ battery_energy (row_slots r) = 0
                 /\ grid_power (row_slots r) = 0
                 /\ electricity_cost (row_slots r) == 0)
         rows.
Proof.
  intros N1 N2 L1 L2.
  set (hours := combine (series_sub pv dem) prices).
  set (sls := map (fun h : Q * Q => store_cost (0 * snd h) zero_slots) hours).
  assert (Hl : List.length sls = List.length prices).
  { unfold sls, hours. rewrite length_map. apply combine_sub_length; assumption. }
  destruct (assemble_columns pv dem prices sls L1 L2 Hl) as (C1 & _ & _ & C4).
  exists (assemble pv dem prices sls). split; [|split].
  - unfold run_simulation. rewrite L1, L2, !Nat.eqb_refl. cbn [andb negb].
    unfold bind. fold hours.
    rewrite (unknown_strategy_hours strategy prices limit N1 N2 hours s).
    reflexivity.
  - rewrite <- C1 at 2. rewrite length_map. reflexivity.
  - assert (Hs : Forall (fun sl =>
                   energy_movement sl = 0 /\ battery_soc sl = 0
                   /\ battery_energy sl = 0 /\ grid_power sl = 0
                   /\ electricity_cost sl == 0) sls).
    { unfold sls. apply Forall_forall. intros sl Hin.
      apply in_map_iff in Hin. destruct Hin as (h & <- & _).
      cbn. repeat split; reflexivity. }
    rewrite <- C4 in Hs. apply Forall_map in Hs. exact Hs.
Qed.

Lemma unknown_strategy_records_zeros_witness :
  exists rows,
    run_simulation [10; 0] [0; 5] [1; 2] "price_arbitrage" None
      (mkSim default_battery []) = (mkSim default_battery [], inr rows)
    /\ List.length rows = List.length [10; 0]
    /\ Forall (fun r =>
                 energy_movement (row_slots r) = 0
                 /\ battery_soc (row_slots r) = 0
                 /\ battery_energy (row_slots r) = 0
                 /\ grid_power (row_slots r) = 0
                 /\ electricity_cost (row_slots r) == 0)
         rows.
Proof.
  apply (unknown_strategy_records_zeros [10; 0] [0; 5] [1; 2]
           "price_arbitrage" None (mkSim default_battery [])).
  - discriminate.
  - discriminate.
  - reflexivity.
  - reflexivity.
Defined.

(** X12.  Under the ['price arbitrage'] strategy a run over series of
    finite numbers returns its table exactly when the three series are
    empty (the table is then empty and the battery untouched): over any
    non-empty input the run ends in an exception.  (A NaN price is not a
    number of the model: it makes both thresholds NaN and every hour a
    medium-price hour.) *)
Theorem price_arbitrage_returns_only_on_empty
    (pv dem prices : list Q) (limit : option Q) (s : sim_state) :
  (exists s' rows,
      run_simulation pv dem prices "price arbitrage" limit s = (s', inr rows))
  <-> pv = [] /\ dem = [] /\ prices = [].
Proof.
  split.
  - intros (s' & rows & R).
    destruct prices as [|c prices].
    + apply run_simulation_returned in R. destruct R as (L1 & L2 & _).
      destruct dem; [|discriminate]. destruct pv; [|discriminate].
      repeat split.
    + destruct (price_arbitrage_run_raises pv dem (c :: prices) limit s)
        as (s1 & e & R'); [discriminate|].
      rewrite R' in R. discriminate.
  - intros (-> & -> & ->). exists s, []. reflexivity.
Qed.

(** X13.  The grid connection limit is never applied: a run with any
    limit is the run without limit, in its table, its exception and its
    effect on the battery. *)
Theorem grid_connection_limit_is_ignored
    (pv dem prices : list Q) (strategy : string) (limit : Q)
    (s : sim_state) :
  run_simulation pv dem prices strategy (Some limit) s
  = run_simulation pv dem prices strategy None s.
Proof.
  assert (H : forall hours s0,
             run_hours strategy prices (Some limit) hours s0
             = run_hours strategy prices None hours s0).
  { induction hours as [|[net price] hours IH]; intro s0; [reflexivity|].
    cbn [run_hours]. unfold bind at 1 3.
    change (hour_body strategy prices (Some limit) net price s0)
      with (hour_body strategy prices None net price s0).
    destruct (hour_body strategy prices None net price s0) as [s1 [e|sl]];
      [reflexivity|].
    unfold bind. rewrite IH. reflexivity. }
  unfold run_simulation. destruct (negb _); [reflexivity|].
  unfold bind. rewrite H. reflexivity.
Qed.

(** *** The recorded trajectory of the battery *)

Lemma charge_returned
    (self self' : BatteryEnergyStorageSystem) (p t : Q) (r : Q * Q * Q * Q) :
  charge p t self = (self', inr r) ->
  existing_energy self' = existing_energy self + item1 r.
Proof.
  intro H.
  destruct (Qlt_le_dec p 0) as [Hn|Hp];
    [rewrite charge_negative in H by assumption; discriminate|].
  destruct (Qeq_dec (battery_capacity self) 0) as [Hz|Hcap].
  - destruct (perform_zero_capacity self (Charge p t) Hz) as [e He].
    cbn [perform] in He. rewrite H in He. discriminate.
  - pose proof (charge_on_return self p t Hp Hcap) as E. cbv zeta in E.
    rewrite E in H. inversion H; subst. reflexivity.
Qed.

Lemma discharge_returned
    (self self' : BatteryEnergyStorageSystem) (p t : Q) (r : Q * Q * Q * Q) :
  discharge p t self = (self', inr r) ->
  existing_energy self' = existing_energy self - item1 r.
Proof.
  intro H.
  destruct (Qlt_le_dec p 0) as [Hn|Hp];
    [rewrite discharge_negative in H by assumption; discriminate|].
  destruct (Qeq_dec (battery_capacity self) 0) as [Hz|Hcap].
  - destruct (perform_zero_capacity self (Discharge p t) Hz) as [e He].
    cbn [perform] in He. rewrite H in He. discriminate.
  - pose proof (discharge_on_return self p t Hp Hcap) as E. cbv zeta in E.
    rewrite E in H. inversion H; subst. reflexivity.
Qed.

(** What the simple block and the medium-price block record about the
    battery when they return. *)
Lemma baseline_block_records
    (net : Q) (sl0 : slots) (s s' : sim_state) (sl : slots) :
  simple_hour net sl0 s = (s', inr sl)
  \/ medium_price_hour net sl0 s = (s', inr sl) ->
  battery_energy sl = existing_energy (battery s')
  /\ battery_soc sl = soc (battery s')
  /\ existing_energy (battery s')
     == existing_energy (battery s) + energy_movement sl.
Proof.
  assert (C : forall p,
             (r <- battery_charge p ;;
              b <- the_battery ;;
              ret (store_grid (net - item1 r)
                     (store_battery b (store_movement (item1 r) sl0))))%monad
               s = (s', inr sl) ->
             battery_energy sl = existing_energy (battery s')
             /\ battery_soc sl = soc (battery s')
             /\ existing_energy (battery s')
                == existing_energy (battery s) + energy_movement sl).
  { intros p H. run_monad in H.
    destruct (charge p 1 (battery s)) as [b [e|r]] eqn:E;
      [discriminate|].
    inversion H; subst. cbn.
    rewrite (charge_returned (battery s) b p 1 r E).
    repeat split; reflexivity. }
  assert (D : forall p,
             (r <- battery_discharge p ;;
              b <- the_battery ;;
              ret (store_grid (net + item1 r)
                     (store_battery b (store_movement (- item1 r) sl0))))%monad
               s = (s', inr sl) ->
             battery_energy sl = existing_energy (battery s')
             /\ battery_soc sl = soc (battery s')
             /\ existing_energy (battery s')
                == existing_energy (battery s) + energy_movement sl).
  { intros p H. run_monad in H.
    destruct (discharge p 1 (battery s)) as [b [e|r]] eqn:E;
      [discriminate|].
    inversion H; subst. cbn.
    rewrite (discharge_returned (battery s) b p 1 r E).
    repeat split; reflexivity. }
  intros [H|H]; [unfold simple_hour in H|unfold medium_price_hour in H];
    destruct (0 <? net).
  - exact (C _ H).
  - exact (D _ H).
  - exact (C _ H).
  - exact (D _ H).
Qed.

Lemma hour_body_records
    (strategy : string) (prices : list Q) (limit : option Q) (net price : Q)
    (s s' : sim_state) (sl : slots) :
  known_strategy strategy ->
  hour_body strategy prices limit net price s = (s', inr sl) ->
  battery_energy sl = existing_energy (battery s')
  /\ battery_soc sl = soc (battery s')
  /\ existing_energy (battery s')
     == existing_energy (battery s) + energy_movement sl.
Proof.
  intros K H. unfold hour_body, bind in H.
  destruct (dispatch strategy prices net price zero_slots s)
    as [s1 [e|sl1]] eqn:D; [discriminate|].
  unfold ret in H. inversion H; subst. clear H.
  assert (L : match limit with Some _ => sl1 | None => sl1 end = sl1)
    by (destruct limit; reflexivity).
  rewrite L. cbn [store_cost battery_energy battery_soc energy_movement].
  destruct K as [K|K]; subst strategy.
  - apply (baseline_block_records net zero_slots s s' sl1). left. exact D.
  - change (price_arbitrage_hour prices net price zero_slots s
            = (s', inr sl1)) in D.
    rewrite price_arbitrage_hour_cases in D.
    destruct (Qle_bool price (price_threshold_low prices)).
    + destruct (low_price_hour_raises net zero_slots s)
        as (s1 & e & p & E & _).
      rewrite E in D. discriminate.
    + destruct (price_threshold_high prices <? price).
      * destruct (high_price_hour_raises net zero_slots s)
          as (s1 & e & ops & E & _).
        rewrite E in D. discriminate.
      * apply (baseline_block_records net zero_slots s s' sl1).
        right. exact D.
Qed.

Lemma run_hours_chain
    (strategy : string) (all_prices : list Q) (limit : option Q) :
  known_strategy strategy ->
  forall (hours : list (Q * Q)) (s s' : sim_state) (sls : list slots),
    run_hours strategy all_prices limit hours s = (s', inr sls) ->
    List.length sls = List.length hours
    /\ chained (existing_energy (battery s)) sls
    /\ existing_energy (battery s')
       = last (map battery_energy sls) (existing_energy (battery s)).
Proof.
  intro K.
  induction hours as [|[net price] hours IH]; intros s s' sls Hr.
  - cbn in Hr. unfold ret in Hr. inversion Hr; subst. cbn. repeat split.
  - cbn [run_hours] in Hr. unfold bind at 1 in Hr.
    destruct (hour_body strategy all_prices limit net price s)
      as [s1 [e|sl]] eqn:H; [discriminate|].
    unfold bind at 1 in Hr.
    destruct (run_hours strategy all_prices limit hours s1)
      as [s2 [e|sls']] eqn:T; [discriminate|].
    unfold ret in Hr. inversion Hr; subst.
    destruct (hour_body_records _ _ _ _ _ _ _ _ K H) as (He & _ & Hm).
    destruct (IH _ _ _ T) as (Hl & Hc & Hf).
    cbn [List.length chained map]. split; [congruence|]. split.
    + split; [rewrite He; exact Hm|]. rewrite He. exact Hc.
    + rewrite Hf, <- He. symmetry. apply last_cons_default.
Qed.

(** X14.  The recorded trajectory is consistent: in every run under the
    ['simple'] or ['price arbitrage'] strategy that returns its table, the
    stored energy recorded for an hour is the stored energy recorded for
    the hour before (the battery's stored energy at the start, for the
    first hour) plus the recorded energy movement of the hour, and the
    battery is left with the stored energy of the last row. *)
Theorem recorded_energy_is_chained
    (pv dem prices : list Q) (strategy : string) (limit : option Q)
    (s s' : sim_state) (rows : list result_row) :
  known_strategy strategy ->
  run_simulation pv dem prices strategy limit s = (s', inr rows) ->
  chained (existing_energy (battery s)) (map row_slots rows)
  /\ existing_energy (battery s')
     = last (map battery_energy (map row_slots rows))
         (existing_energy (battery s)).
Proof.
  intros K R.
  destruct (run_simulation_returned _ _ _ _ _ _ _ _ R)
    as (L1 & L2 & sls & Hr & ->).
  destruct (run_hours_chain strategy prices limit K _ _ _ _ Hr)
    as (Hl & Hc & Hf).
  rewrite combine_sub_length in Hl by assumption.
  destruct (assemble_columns pv dem prices sls L1 L2 Hl) as (_ & _ & _ & C4).
  rewrite C4. split; assumption.
Qed.

Lemma recorded_energy_is_chained_witness :
  let run := run_simulation [10; 0; 0] [0; 5; 5] [1; 1; 1] "simple" None
               (mkSim default_battery []) in
  let rows := match snd run with inr rows => rows | inl _ => [] end in
  chained (existing_energy default_battery) (map row_slots rows)
  /\ existing_energy (battery (fst run))
     = last (map battery_energy (map row_slots rows))
         (existing_energy default_battery).
Proof.
  cbv zeta.
  apply (recorded_energy_is_chained [10; 0; 0] [0; 5; 5] [1; 1; 1]
           "simple" None (mkSim default_battery [])).
  - left. reflexivity.
  - vm_compute. reflexivity.
Defined.

(** *** The simple strategy on a sound battery *)

Lemma simple_step_facts
    (prices : list Q) (limit : option Q) (net price : Q)
    (s s' : sim_state) (sl : slots) :
  sound_config (battery s) -> in_band (battery s) ->
  hour_body "simple" prices limit net price s = (s', inr sl) ->
  let b := battery s in
  let b' := battery s' in
  (sound_config b' /\ in_band b')
  /\ (battery_capacity b' = battery_capacity b
      /\ min_soc b' = min_soc b /\ max_soc b' = max_soc b)
  /\ (battery_energy sl = existing_energy b'
      /\ battery_soc sl = existing_energy b' / battery_capacity b)
  /\ (0 < net ->
      0 <= energy_movement sl
      /\ 0 <= grid_power sl /\ grid_power sl <= net)
  /\ (net <= 0 ->
      energy_movement sl <= 0
      /\ net <= grid_power sl /\ grid_power sl <= 0).
Proof.
  intros Hs Hin H. cbv zeta.
  destruct (simple_hour_body_returned _ _ _ _ _ _ _ H) as (sl1 & H1 & ->).
  destruct (simple_hour_returned _ _ _ _ _ H1)
    as (Hcap & -> & Esoc & Een & _ & Hmov).
  cbn [battery store_cost battery_energy battery_soc energy_movement
         grid_power].
  pose proof Hs as (HP & Hc0 & Hc1 & Hd0 & Hd1).
  pose proof Hin as [Hlo Hhi].
  assert (Hone : 0 <= 1) by discriminate.
  split.
  { split.
    - apply perform_sound_config, Hs.
    - apply perform_in_band; try assumption.
      unfold simple_request. destruct (0 <? net) eqn:En; cbn.
      + apply Qltb_true in En. split; lra.
      + apply Qltb_false in En. split; lra. }
  split.
  { destruct (perform_config (battery s) (simple_request net))
      as (E1 & _ & _ & _ & E2 & E3).
    repeat split; assumption. }
  split.
  { split; [exact Een|]. rewrite Esoc.
    unfold simple_request. destruct (0 <? net) eqn:En; cbn [perform].
    - apply Qltb_true in En.
      rewrite (charge_on_return (battery s) net 1) by (lra || assumption).
      reflexivity.
    - apply Qltb_false in En.
      rewrite (discharge_on_return (battery s) (- net) 1)
        by (lra || assumption).
      reflexivity. }
  destruct (0 <? net) eqn:En; destruct Hmov as [Em Eg]; rewrite Em, Eg.
  - apply Qltb_true in En. split; [|intro; lra]. intros _.
    assert (Hp : 0 <= net) by lra.
    destruct (applied_charge_bounds (battery s) net 1 Hp Hone HP Hc0 Hhi)
      as [A0 _].
    destruct (applied_charge_le_rated (battery s) net 1 Hone Hc0) as [A1 _].
    assert (Hm0 : 0 <= py_min net (battery_power (battery s)) * 1).
    { apply Qmult_le_0_compat; [apply py_min_nonneg|]; assumption. }
    pose proof (py_min_le_l net (battery_power (battery s))) as Hml.
    assert (A2 : charged_after_efficiency (battery s) net 1
                 <= 1 * (py_min net (battery_power (battery s)) * 1)).
    { unfold charged_after_efficiency.
      apply Qmult_le_compat_r; assumption. }
    repeat split; lra.
  - apply Qltb_false in En. split; [intro; lra|]. intros _.
    assert (Hp : 0 <= - net) by lra.
    destruct (applied_discharge_bounds (battery s) (- net) 1
                Hp Hone HP Hd0 Hlo) as [A0 _].
    destruct (applied_discharge_le_rated (battery s) (- net) 1 Hone Hd0)
      as [A1 _].
    assert (Hm0 : 0 <= py_min (- net) (battery_power (battery s)) * 1).
    { apply Qmult_le_0_compat; [apply py_min_nonneg|]; assumption. }
    pose proof (py_min_le_l (- net) (battery_power (battery s))) as Hml.
    assert (A2 : discharged_after_efficiency (battery s) (- net) 1
                 <= py_min (- net) (battery_power (battery s)) * 1 * 1).
    { unfold discharged_after_efficiency.
      rewrite !(Qmult_comm (py_min (- net) (battery_power (battery s)) * 1)).
      apply Qmult_le_compat_r; assumption. }
    repeat split; lra.
Qed.

(** X15.  An hour of the simple strategy only reduces the exchange with
    the grid: on a battery within its band, with non-negative rating and
    efficiencies between 0 and 1, an hour that returns records, for a
    surplus, a non-negative energy movement (a charge) and a grid power
    between 0 and the net load, and for a deficit a non-positive movement
    (a discharge) and a grid power between the net load and 0.  In such an
    hour the battery is not charged from the grid and not discharged into
    it. *)
Theorem simple_hour_reduces_grid_exchange
    (prices : list Q) (limit : option Q) (net price : Q)
    (s s' : sim_state) (sl : slots) :
  sound_config (battery s) -> in_band (battery s) ->
  hour_body "simple" prices limit net price s = (s', inr sl) ->
  (0 < net ->
   0 <= energy_movement sl /\ 0 <= grid_power sl /\ grid_power sl <= net)
  /\ (net <= 0 ->
      energy_movement sl <= 0
      /\ net <= grid_power sl /\ grid_power sl <= 0).
Proof.
  intros Hs Hin H.
  destruct (simple_step_facts _ _ _ _ _ _ _ Hs Hin H)
    as (_ & _ & _ & Hsur & Hdef).
  split; assumption.
Qed.

Lemma simple_hour_reduces_grid_exchange_witness :
  let run := hour_body "simple" [1] None 3000 1 (mkSim default_battery []) in
  let sl := match snd run with inr sl => sl | inl _ => zero_slots end in
  run = (fst run, inr sl)
  /\ 0 <= energy_movement sl /\ 0 <= grid_power sl
  /\ grid_power sl <= 3000.
Proof.
  cbv zeta. split; [vm_compute; reflexivity|].
  refine (proj1 (simple_hour_reduces_grid_exchange [1] None 3000 1
                   (mkSim default_battery []) _ _ _ _ _) _).
  - repeat split; vm_compute; discriminate.
  - split; vm_compute; discriminate.
  - vm_compute. reflexivity.
  - reflexivity.
Defined.

(** *** Hours outside the medium price band *)

(** X17.  A low-price hour of the price-arbitrage strategy never
    completes: on a battery of non-zero capacity it invokes [charge] once,
    with the net load when there is a surplus and with the power rating
    otherwise, and then raises ValueError; the charge is not undone, so
    the run aborts with the battery already charged. *)
Theorem low_price_hour_aborts_after_charging
    (prices : list Q) (limit : option Q) (net price : Q) (s : sim_state) :
  price <= price_threshold_low prices ->
  ~ battery_capacity (battery s) == 0 ->
  let p := if 0 <? net then net else battery_power (battery s) in
  hour_body "price arbitrage" prices limit net price s
  = (mkSim (fst (charge p 1 (battery s))) (invoked s ++ [Charge p 1]),
     inl ValueError)
  /\ (0 <= p ->
      existing_energy (fst (charge p 1 (battery s)))
      = existing_energy (battery s) + applied_charge (battery s) p 1).
Proof.
  intros Hl Hcap. cbv zeta. split; [|apply charge_energy].
  unfold hour_body, bind.
  change (dispatch "price arbitrage" prices net price zero_slots s)
    with (price_arbitrage_hour prices net price zero_slots s).
  rewrite price_arbitrage_hour_cases.
  apply Qle_bool_iff in Hl. rewrite Hl.
  unfold low_price_hour. run_monad.
  set (p := if 0 <? net then net else battery_power (battery s)).
  destruct (Qlt_le_dec p 0) as [Hn|Hp].
  - rewrite charge_negative by assumption. reflexivity.
  - rewrite (charge_on_return (battery s) p 1 Hp Hcap). reflexivity.
Qed.

Lemma low_price_hour_aborts_after_charging_witness :
  hour_body "price arbitrage" [2; 1; 3] None (0 - 5) 1
    (mkSim default_battery [])
  = (mkSim (fst (charge 2000 1 default_battery)) ([] ++ [Charge 2000 1]),
     inl ValueError)
  /\ existing_energy (fst (charge 2000 1 default_battery))
     = existing_energy default_battery
       + applied_charge default_battery 2000 1.
Proof.
  destruct (low_price_hour_aborts_after_charging [2; 1; 3] None (0 - 5) 1
              (mkSim default_battery [])) as [H1 H2].
  - vm_compute. discriminate.
  - vm_compute. discriminate.
  - split; [exact H1|]. apply H2. vm_compute. discriminate.
Defined.

(** X18.  A high-price hour of the price-arbitrage strategy never
    completes either.  On a battery of non-zero capacity: with a deficit
    it discharges the negated net load and raises TypeError; without a
    deficit and a state of charge above 0.1 it raises AttributeError
    before touching the battery; without a deficit and a state of charge
    of at most 0.1 it calls [discharge(0)] and raises TypeError. *)
Theorem high_price_hour_always_raises
    (prices : list Q) (limit : option Q) (net price : Q) (s : sim_state) :
  price_threshold_low prices < price ->
  price_threshold_high prices < price ->
  ~ battery_capacity (battery s) == 0 ->
  hour_body "price arbitrage" prices limit net price s
  = if net <? 0
    then (mkSim (fst (discharge (- net) 1 (battery s)))
            (invoked s ++ [Discharge (- net) 1]), inl TypeError)
    else if (1 # 10) <? soc (battery s)
         then (s, inl AttributeError)
         else (mkSim (fst (discharge 0 1 (battery s)))
                 (invoked s ++ [Discharge 0 1]), inl TypeError).
Proof.
  intros Hl Hh Hcap.
  unfold hour_body, bind.
  change (dispatch "price arbitrage" prices net price zero_slots s)
    with (price_arbitrage_hour prices net price zero_slots s).
  rewrite price_arbitrage_hour_cases.
  apply Qltb_true in Hl. unfold Qltb in Hl. apply negb_true_iff in Hl.
  rewrite Hl. apply Qltb_true in Hh. rewrite Hh.
  unfold high_price_hour. run_monad.
  destruct (net <? 0) eqn:En.
  - apply Qltb_true in En.
    rewrite (discharge_on_return (battery s) (- net) 1) by (lra || assumption).
    reflexivity.
  - destruct ((1 # 10) <? soc (battery s)); [reflexivity|].
    rewrite (discharge_on_return (battery s) 0 1)
      by (discriminate || assumption).
    reflexivity.
Qed.

Lemma high_price_hour_always_raises_witness :
  hour_body "price arbitrage" [2; 1; 3] None 7 3 (mkSim default_battery [])
  = if 7 <? 0
    then (mkSim (fst (discharge (- 7) 1 default_battery))
            ([] ++ [Discharge (- 7) 1]), inl TypeError)
    else if (1 # 10) <? soc default_battery
         then (mkSim default_battery [], inl AttributeError)
         else (mkSim (fst (discharge 0 1 default_battery))
                 ([] ++ [Discharge 0 1]), inl TypeError).
Proof.
  apply (high_price_hour_always_raises [2; 1; 3] None 7 3
           (mkSim default_battery [])).
  - vm_compute. reflexivity.
  - vm_compute. reflexivity.
  - vm_compute. discriminate.
Defined.

(** *** The two price thresholds *)

(** A percentile lies between the data at the two ranks it interpolates,
    and the ranks are valid positions. *)
Lemma percentile_between (a : list Q) (q : Q) :
  a <> [] -> 0 <= q -> q <= 100 ->
  let s := sort a in
  let n := Z.of_nat (List.length s) in
  let v := (inject_Z n - 1) * q / 100 in
  let lo := Qfloor v in
  let hi := Z.min (lo + 1) (n - 1) in
  (0 <= lo)%Z /\ (lo <= hi)%Z /\ (hi <= n - 1)%Z
  /\ 0 <= v - inject_Z lo
  /\ nth (Z.to_nat lo) s 0 <= nth (Z.to_nat hi) s 0
  /\ nth (Z.to_nat lo) s 0 <= percentile a q
  /\ percentile a q <= nth (Z.to_nat hi) s 0.
Proof.
  intros Hne Hq0 Hq1. cbv zeta. unfold percentile.
  set (s := sort a).
  set (n := Z.of_nat (List.length s)).
  set (v := (inject_Z n - 1) * q / 100).
  set (lo := Qfloor v).
  set (hi := Z.min (lo + 1) (n - 1)).
  assert (Hn : (1 <= n)%Z).
  { unfold n, s. rewrite sort_length.
    destruct a; [congruence|]. cbn [List.length]. lia. }
  assert (Hn' : 1 <= inject_Z n).
  { change 1 with (inject_Z 1). rewrite <- Zle_Qle. exact Hn. }
  assert (Hv0 : 0 <= v).
  { unfold v. apply Qle_shift_div_l; [reflexivity|].
    assert (H : 0 <= (inject_Z n - 1) * q)
      by (apply Qmult_le_0_compat; lra).
    lra. }
  assert (Hv1 : v <= inject_Z (n - 1)).
  { assert (E : inject_Z (n - 1) == inject_Z n - 1)
      by (unfold Z.sub; rewrite inject_Z_plus; reflexivity).
    rewrite E. unfold v.
    apply Qle_shift_div_r; [reflexivity|].
    rewrite !(Qmult_comm (inject_Z n - 1)).
    apply Qmult_le_compat_r; lra. }
  assert (Hlo0 : (0 <= lo)%Z).
  { unfold lo. change 0%Z with (Qfloor 0). apply Qfloor_resp_le, Hv0. }
  assert (Hlo1 : (lo <= n - 1)%Z).
  { unfold lo. rewrite <- (Qfloor_Z (n - 1)). apply Qfloor_resp_le, Hv1. }
  assert (Hg0 : 0 <= v - inject_Z lo).
  { pose proof (Qfloor_le v) as H. fold lo in H. lra. }
  assert (Hg1 : v - inject_Z lo <= 1).
  { pose proof (Qlt_floor v) as H. fold lo in H.
    rewrite inject_Z_plus in H. change (inject_Z 1) with 1 in H. lra. }
  assert (Hlen : (Z.to_nat hi < List.length s)%nat)
    by (unfold hi, n in *; lia).
  assert (Hlh : (Z.to_nat lo <= Z.to_nat hi)%nat) by (unfold hi; lia).
  pose proof (ascending_nth s (sort_ascending a) _ _ Hlh Hlen) as Ha.
  split; [exact Hlo0|]. split; [unfold hi; lia|]. split; [unfold hi; lia|].
  split; [exact Hg0|]. split; [exact Ha|].
  set (x := nth (Z.to_nat lo) s 0) in *.
  set (y := nth (Z.to_nat hi) s 0) in *.
  assert (H0 : 0 <= (y - x) * (v - inject_Z lo))
    by (apply Qmult_le_0_compat; lra).
  assert (H1 : (y - x) * (v - inject_Z lo) <= (y - x) * 1).
  { rewrite !(Qmult_comm (y - x)). apply Qmult_le_compat_r; lra. }
  split; lra.
Qed.

(** Percentiles of the same data are monotone in the requested rank. *)
Lemma percentile_monotone (a : list Q) (q1 q2 : Q) :
  a <> [] -> 0 <= q1 -> q1 <= q2 -> q2 <= 100 ->
  percentile a q1 <= percentile a q2.
Proof.
  intros Hne H0 H12 H2.
  assert (Hq1 : q1 <= 100) by lra.
  assert (Hq2 : 0 <= q2) by lra.
  pose proof (percentile_between a q1 Hne H0 Hq1) as B1.
  pose proof (percentile_between a q2 Hne Hq2 H2) as B2.
  cbv zeta in B1, B2.
  set (s := sort a) in *.
  set (n := Z.of_nat (List.length s)) in *.
  set (v1 := (inject_Z n - 1) * q1 / 100) in *.
  set (v2 := (inject_Z n - 1) * q2 / 100) in *.
  destruct B1 as (L1 & LH1 & HN1 & G1 & A1 & P1lo & P1hi).
  destruct B2 as (L2 & LH2 & HN2 & G2 & A2 & P2lo & P2hi).
  assert (Hn : (1 <= n)%Z) by lia.
  assert (Hn' : 1 <= inject_Z n).
  { change 1 with (inject_Z 1). rewrite <- Zle_Qle. exact Hn. }
  assert (Hv : v1 <= v2).
  { unfold v1, v2. unfold Qdiv.
    apply Qmult_le_compat_r; [|discriminate].
    rewrite !(Qmult_comm (inject_Z n - 1)).
    apply Qmult_le_compat_r; lra. }
  pose proof (Qfloor_resp_le _ _ Hv) as Hlo.
  destruct (Z.eq_dec (Qfloor v1) (Qfloor v2)) as [Eq|Ne].
  - unfold percentile. fold s. fold n. fold v1. fold v2.
    rewrite <- Eq in *.
    set (x := nth (Z.to_nat (Qfloor v1)) s 0) in *.
    set (y := nth (Z.to_nat (Z.min (Qfloor v1 + 1) (n - 1))) s 0) in *.
    assert (H : (y - x) * (v1 - inject_Z (Qfloor v1))
                <= (y - x) * (v2 - inject_Z (Qfloor v1))).
    { rewrite !(Qmult_comm (y - x)). apply Qmult_le_compat_r; lra. }
    lra.
  - assert (Hlt : (Qfloor v1 + 1 <= Qfloor v2)%Z) by lia.
    assert (Hmid : nth (Z.to_nat (Z.min (Qfloor v1 + 1) (n - 1))) s 0
                   <= nth (Z.to_nat (Qfloor v2)) s 0).
    { apply (ascending_nth s (sort_ascending a)); unfold n in *; lia. }
    lra.
Qed.

(** X19.  The two thresholds of the price-arbitrage strategy are ordered
    and lie within the prices: for a non-empty price series the low
    threshold (25th percentile) is at most the high threshold (75th
    percentile), some price is at or below the low threshold and some
    price at or above the high one; hence no hour is both a low-price and
    a high-price hour. *)
Theorem price_thresholds_are_ordered (prices : list Q) :
  prices <> [] ->
  price_threshold_low prices <= price_threshold_high prices
  /\ (exists x, In x prices /\ x <= price_threshold_low prices)
  /\ (exists y, In y prices /\ price_threshold_high prices <= y)
  /\ (forall price,
         ~ (price <= price_threshold_low prices
            /\ price_threshold_high prices < price)).
Proof.
  intro Hne.
  assert (Hord : price_threshold_low prices <= price_threshold_high prices).
  { unfold price_threshold_low, price_threshold_high.
    apply percentile_monotone; try assumption; discriminate. }
  split; [exact Hord|]. split; [|split].
  - pose proof (percentile_between prices 25 Hne) as B. cbv zeta in B.
    destruct B as (L & LH & HN & _ & _ & Plo & _); try discriminate.
    eexists. split; [|exact Plo].
    apply (sort_In _ prices). apply nth_In. lia.
  - pose proof (percentile_between prices 75 Hne) as B. cbv zeta in B.
    destruct B as (L & LH & HN & _ & _ & _ & Phi); try discriminate.
    eexists. split; [|exact Phi].
    apply (sort_In _ prices). apply nth_In. lia.
  - intros price [H1 H2]. lra.
Qed.

Lemma price_thresholds_are_ordered_witness :
  price_threshold_low [2; 1; 3; 8] <= price_threshold_high [2; 1; 3; 8]
  /\ (exists x, In x [2; 1; 3; 8] /\ x <= price_threshold_low [2; 1; 3; 8])
  /\ (exists y, In y [2; 1; 3; 8] /\ price_threshold_high [2; 1; 3; 8] <= y)
  /\ (forall price,
         ~ (price <= price_threshold_low [2; 1; 3; 8]
            /\ price_threshold_high [2; 1; 3; 8] < price)).
Proof.
  apply (price_thresholds_are_ordered [2; 1; 3; 8]). discriminate.
Defined.

(** X20.  A medium-price hour of the price-arbitrage strategy (price
    above the low threshold and at most the high one): with a net load of
    zero or more it is exactly the hour of the simple strategy (same
    battery call, same recorded values, same state); with a deficit it
    calls [discharge] with the negative net load, which raises ValueError
    and leaves the battery unchanged. *)
Theorem medium_price_hour_outcome
    (prices : list Q) (limit : option Q) (net price : Q) (s : sim_state) :
  price_threshold_low prices < price ->
  price <= price_threshold_high prices ->
  hour_body "price arbitrage" prices limit net price s
  = if net <? 0
    then (mkSim (battery s) (invoked s ++ [Discharge net 1]), inl ValueError)
    else hour_body "simple" prices limit net price s.
Proof.
  intros Hl Hh. destruct (net <? 0) eqn:En.
  - apply Qltb_true in En.
    apply medium_hour_raises_on_deficit; assumption.
  - apply Qltb_false in En.
    apply medium_hour_matches_simple_without_deficit; assumption.
Qed.

Lemma medium_price_hour_outcome_witness :
  hour_body "price arbitrage" [2; 1; 3] None 10 2 (mkSim default_battery [])
  = if 10 <? 0
    then (mkSim default_battery ([] ++ [Discharge 10 1]), inl ValueError)
    else hour_body "simple" [2; 1; 3] None 10 2 (mkSim default_battery []).
Proof.
  apply (medium_price_hour_outcome [2; 1; 3] None 10 2
           (mkSim default_battery [])).
  - vm_compute. reflexivity.
  - vm_compute. discriminate.
Defined.

(** X22.  A new battery starts within its band: constructed with a
    non-negative capacity and an initial state of charge between [min_soc]
    and [max_soc], it has stored energy [initial_soc * capacity], state of
    charge [initial_soc], and
    [min_soc * capacity <= stored <= max_soc * capacity]. *)
Theorem new_battery_is_within_band
    (capacity power initial_soc ceff deff lo hi : Q) :
  0 <= capacity -> lo <= initial_soc -> initial_soc <= hi ->
  exists b,
    init capacity power initial_soc ceff deff lo hi = inr b
    /\ in_band b
    /\ existing_energy b = initial_soc * capacity
    /\ soc b = initial_soc.
Proof.
  intros Hc Hlo Hhi. eexists. split; [reflexivity|].
  unfold in_band. cbn.
  split; [split; apply Qmult_le_compat_r; assumption|].
  split; reflexivity.
Qed.

Lemma new_battery_is_within_band_witness :
  exists b,
    init 4000 2000 (1 # 2) (95 # 100) (95 # 100) (1 # 10) 1 = inr b
    /\ in_band b
    /\ existing_energy b = (1 # 2) * 4000
    /\ soc b = 1 # 2.
Proof.
  apply (new_battery_is_within_band 4000 2000 (1 # 2) (95 # 100) (95 # 100)
           (1 # 10) 1); discriminate.
Defined.
